(** * adi-thadi: the room and turn-based combat coordinator of [src/api/socket.js]

    A shallow embedding of the socket handler: the two in-memory maps
    ([rooms], [players]), the room code generator, the nine event handlers
    registered on a connection and the periodic sweep of empty rooms.

    Conventions of the embedding.
    - A handler runs to completion on the single event loop, so it is a
      function from the state before to an [Outcome]: the state after with the
      messages it sent, or an uncaught exception.
    - A room's [players] array holds references to player objects.  Handlers
      read such an entry only through its [id] (lines 150, 202, 301), which is
      the connection id the object was created with, so the array is a list of
      connection ids.
    - [Date.now()] and [Math.random()] are inputs of the event that calls
      them. *)

From stdpp Require Import gmap strings list fin_maps.
From Stdlib Require Import ZArith Lia Ascii String.

Local Open Scope string_scope.
Local Open Scope Z_scope.

(** ** JavaScript values carried by payloads *)

(** The values a payload field can hold: the primitives, and [JObj] for an
    object or an array, which the handlers can only tell from a primitive. *)
Inductive jsval :=
  | JUndefined
  | JNull
  | JBool (b : bool)
  | JNum (z : Z)
  | JStr (s : string)
  | JObj.

#[global] Instance jsval_eq_dec : EqDecision jsval.
Proof. solve_decision. Defined.

(** Truthiness, as used by [||] and [!]. *)
Definition truthy (v : jsval) : bool :=
  match v with
  | JUndefined | JNull => false
  | JBool b => b
  | JNum z => negb (z =? 0)
  | JStr s => negb (String.eqb s "")
  | JObj => true
  end.

(** [a || b] *)
Definition js_or (a b : jsval) : jsval := if truthy a then a else b.

(** [v === 'lit'] *)
Definition is_str (v : jsval) (lit : string) : bool := bool_decide (v = JStr lit).

(** The [name] a client sends is the one value a handler converts to a
    string on arrival (the template literal of line 67).  The conversion
    returns for every primitive and for an ordinary object or array; it
    throws a TypeError for an object whose [toString] and [valueOf] give no
    primitive, such as [{toString: 1}]. *)
Inductive NameField :=
  | Printable (v : jsval)
  | Unprintable.

(** The fields the handlers read from [data]; a field the client left out is
    [JUndefined]. *)
Record Fields := {
  f_name : NameField;
  f_roomCode : jsval;
  f_player : jsval;
  f_action : jsval
}.

(** The argument of a handler: [undefined] or [null] (reading a property of
    either throws a TypeError), or a value with properties. *)
Inductive Payload :=
  | NoData
  | Data (d : Fields).

(** ** Data model *)

Inductive Seat := player1 | player2.

#[global] Instance Seat_eq_dec : EqDecision Seat.
Proof. solve_decision. Defined.

Definition other_seat (t : Seat) : Seat :=
  match t with player1 => player2 | player2 => player1 end.

Record Player := {
  player_id : string;
  player_name : jsval;
  player_room : option string;   (* [null] or a room code *)
  isPlayer1 : bool;
  connectedAt : Z
}.

Record GameState := {
  player1Health : Z;
  player2Health : Z;
  gameActive : bool;
  currentTurn : Seat;
  round : Z;
  player1Wins : Z;
  player2Wins : Z
}.

Record Room := {
  code : string;
  room_players : list string;
  gameState : GameState;
  createdAt : Z;
  lastActivity : Z
}.

Record State := {
  rooms : gmap string Room;
  players : gmap string Player
}.

Definition initial : State := {| rooms := ∅; players := ∅ |}.

(** ** Outbound messages *)

Inductive Message :=
  | room_created (roomCode : string)
  | room_not_found
  | room_full
  | room_joined (roomCode : string)
  | player_joined (plist : list string) (playerId : string)
  | player_left (plist : list string)
  | game_start (plist : list string) (gs : GameState)
  | error (message : string)
  | game_action_msg (action player : jsval) (damage : Z)
  | game_update (p1h p2h : Z) (turn : Seat) (winner : option Seat) (p1w p2w : Z).

Inductive Effect :=
  | socket_emit (sid : string) (m : Message)      (* socket.emit(...) *)
  | io_to_emit (roomCode : string) (m : Message)  (* io.to(roomCode).emit(...) *)
  | socket_join (sid roomCode : string)
  | socket_leave (sid : string) (roomCode : jsval).

Inductive Outcome :=
  | Done (s : State) (out : list Effect)
  | TypeError      (* a property read on undefined or null *)
  | Unfinished.    (* generateRoomCode still recursing when the draws end *)

(** On draws that never give a free code the recursion of line 17 does not
    end by itself: the call stack ends it with a RangeError. *)

(** ** Randomness *)

(** [Math.random()] returns a double in [0, 1), a multiple [u / 2^53] of
    [2^-53]; a draw is its numerator [u], reduced into range. *)
Definition two53 : Z := 2 ^ 53.

(** The product of the double [u / 2^53] and a whole number [n] is the double
    nearest to [u * n / 2^53], ties going to the even significand.  With [m]
    for [u * n], [round53 m / 2^53] is that double: [m] keeps its 53 leading
    bits and the [k] bits below them are rounded away. *)
Definition round53 (m : Z) : Z :=
  let k := Z.log2 m - 52 in
  if k <=? 0 then m
  else
    let q := m / 2 ^ k in
    let r := m mod 2 ^ k in
    let h := 2 ^ (k - 1) in
    if r <? h then q * 2 ^ k
    else if h <? r then (q + 1) * 2 ^ k
    else if Z.even q then q * 2 ^ k
    else (q + 1) * 2 ^ k.

(** [Math.floor(Math.random() * n)] *)
Definition random_floor (u n : Z) : Z := round53 ((u mod two53) * n) / two53.

(** ** Counters *)

(** [x++] on a counter that has been counted up from 0 or 1, so is at most
    2^53.  A double holds every whole number up to 2^53; there [x + 1] has no
    double of its own and rounds back to [x], and the counter stays. *)
Definition js_succ (x : Z) : Z := if x <? two53 then x + 1 else x.

(** ** Room code generator (lines 8-20) *)

Definition chars : string := "ABCDEFGHIJKLMNOPQRSTUVWXYZ".

(** [s.charAt(i)]: a one-character string, empty out of range. *)
Definition charAt (s : string) (i : Z) : string :=
  if i <? 0 then ""
  else match String.get (Z.to_nat i) s with
       | Some c => String c ""
       | None => ""
       end.

Definition random_char (u : Z) : string :=
  charAt chars (random_floor u (Z.of_nat (String.length chars))).

(** The loop of lines 11-13 over the four draws of one attempt. *)
Definition draw_code (us : list Z) : string :=
  fold_left (fun code u => code +:+ random_char u) us "".

(** One attempt takes four draws; a code already in the store starts the
    function again on the draws that follow. *)
Fixpoint generateRoomCode (rs : gmap string Room) (draws : list Z) : option string :=
  match draws with
  | u0 :: u1 :: u2 :: u3 :: rest =>
      let code := draw_code [u0; u1; u2; u3] in
      if decide (is_Some (rs !! code)) then generateRoomCode rs rest
      else Some code
  | _ => None
  end.

(** ** Field updates (JavaScript assignments to one property) *)

Definition set_name_of (v : jsval) (p : Player) : Player :=
  {| player_id := player_id p; player_name := v; player_room := player_room p;
     isPlayer1 := isPlayer1 p; connectedAt := connectedAt p |}.

Definition set_room_of (r : option string) (first : bool) (p : Player) : Player :=
  {| player_id := player_id p; player_name := player_name p; player_room := r;
     isPlayer1 := first; connectedAt := connectedAt p |}.

Definition clear_room_of (p : Player) : Player :=
  set_room_of None (isPlayer1 p) p.

Definition with_room (ps : list string) (gs : GameState) (touched : Z) (r : Room) : Room :=
  {| code := code r; room_players := ps; gameState := gs;
     createdAt := createdAt r; lastActivity := touched |}.

(** [players.get(socket.id)] followed by [player.room], with the [!player.room]
    test of lines 145 and 297: a registered player whose room is a non-empty
    string. *)
Definition room_of (s : State) (sid : string) : option string :=
  match players s !! sid with
  | Some p =>
      match player_room p with
      | Some c => if String.eqb c "" then None else Some c
      | None => None
      end
  | None => None
  end.

(** [rooms.get(key)] for a payload field: only string keys are ever set. *)
Definition rooms_get (s : State) (key : jsval) : option (string * Room) :=
  match key with
  | JStr c => match rooms s !! c with Some r => Some (c, r) | None => None end
  | _ => None
  end.

(** ** Handlers *)

(** The handlers also write to the console.  A log line can throw only where
    it converts a name to a string, and line 67 does that to every name on
    its arrival, before the handler returns; the registry therefore holds
    only names that convert, and the log lines that print a stored name
    (lines 100, 133, 160 and 311) are left out. *)

(** Lines 53-59. *)
Definition on_connection (sid : string) (now : Z) (s : State) : Outcome :=
  let p := {| player_id := sid; player_name := JStr "Anonymous"; player_room := None;
              isPlayer1 := false; connectedAt := now |} in
  Done {| rooms := rooms s; players := <[sid := p]> (players s) |} [].

(** Lines 62-69. *)
Definition on_set_name (sid : string) (data : Payload) (s : State) : Outcome :=
  match players s !! sid with
  | Some p =>
      match data with
      | NoData => TypeError
      | Data d =>
          match f_name d with
          | Unprintable => TypeError   (* stored by line 65, not converted by line 67 *)
          | Printable v =>
              let p' := set_name_of (js_or v (JStr "Anonymous")) p in
              Done {| rooms := rooms s; players := <[sid := p']> (players s) |} []
          end
      end
  | None => Done s []
  end.

Definition new_gameState : GameState :=
  {| player1Health := 100; player2Health := 100; gameActive := false;
     currentTurn := player1; round := 1; player1Wins := 0; player2Wins := 0 |}.

(** Lines 72-107.  [t_created] and [t_activity] are the two clock readings. *)
Definition on_create_room (sid : string) (draws : list Z) (t_created t_activity : Z)
    (s : State) : Outcome :=
  match players s !! sid with
  | None => Done s []
  | Some p =>
      match generateRoomCode (rooms s) draws with
      | None => Unfinished
      | Some roomCode =>
          let room := {| code := roomCode; room_players := [sid];
                         gameState := new_gameState;
                         createdAt := t_created; lastActivity := t_activity |} in
          Done {| rooms := <[roomCode := room]> (rooms s);
                  players := <[sid := set_room_of (Some roomCode) true p]> (players s) |}
               [ socket_join sid roomCode;
                 socket_emit sid (room_created roomCode);
                 io_to_emit roomCode (player_joined (room_players room) sid) ]
      end
  end.

(** Lines 110-140. *)
Definition on_join_room (sid : string) (data : Payload) (now : Z) (s : State) : Outcome :=
  match players s !! sid with
  | None => Done s []
  | Some p =>
      match data with
      | NoData => TypeError
      | Data d =>
          match rooms_get s (f_roomCode d) with
          | None => Done s [socket_emit sid room_not_found]
          | Some (c, room) =>
              if (2 <=? List.length (room_players room))%nat
              then Done s [socket_emit sid room_full]
              else
                let ps := (room_players room ++ [sid])%list in
                let room' := with_room ps (gameState room) now room in
                Done {| rooms := <[c := room']> (rooms s);
                        players := <[sid := set_room_of (Some c) false p]> (players s) |}
                     [ socket_join sid c;
                       socket_emit sid (room_joined c);
                       io_to_emit c (player_joined ps sid) ]
          end
      end
  end.

(** [room.players.filter(p => p.id !== socket.id)] *)
Definition without (sid : string) (ps : list string) : list string :=
  filter (fun p => p ≠ sid) ps.

(** Lines 143-172.  The read of [data.roomCode] on line 171 comes last. *)
Definition on_leave_room (sid : string) (data : Payload) (now : Z) (s : State) : Outcome :=
  match room_of s sid, players s !! sid with
  | Some c, Some p =>
      let '(rs, out) :=
        match rooms s !! c with
        | Some room =>
            let ps := without sid (room_players room) in
            if (List.length ps =? 0)%nat then (delete c (rooms s), [])
            else
              let gs := gameState room in
              let gs' := {| player1Health := 100; player2Health := 100;
                            gameActive := false;
                            currentTurn := currentTurn gs; round := round gs;
                            player1Wins := player1Wins gs;
                            player2Wins := player2Wins gs |} in
              (<[c := with_room ps gs' now room]> (rooms s),
               [io_to_emit c (player_left ps)])
        | None => (rooms s, [])
        end in
      match data with
      | NoData => TypeError
      | Data d =>
          Done {| rooms := rs; players := <[sid := clear_room_of p]> (players s) |}
               (out ++ [socket_leave sid (f_roomCode d)])%list
      end
  | _, _ => Done s []
  end.

(** Lines 293-320. *)
Definition on_disconnect (sid : string) (now : Z) (s : State) : Outcome :=
  let '(rs, out) :=
    match room_of s sid with
    | Some c =>
        match rooms s !! c with
        | Some room =>
            let ps := without sid (room_players room) in
            if (List.length ps =? 0)%nat then (delete c (rooms s), [])
            else
              let gs := gameState room in
              let gs' := {| player1Health := player1Health gs;
                            player2Health := player2Health gs;
                            gameActive := false;
                            currentTurn := currentTurn gs; round := round gs;
                            player1Wins := player1Wins gs;
                            player2Wins := player2Wins gs |} in
              (<[c := with_room ps gs' now room]> (rooms s),
               [io_to_emit c (player_left ps)])
        | None => (rooms s, [])
        end
    | None => (rooms s, [])
    end in
  Done {| rooms := rs; players := delete sid (players s) |} out.

(** Lines 175-191. *)
Definition on_start_game (sid : string) (data : Payload) (now : Z) (s : State) : Outcome :=
  match data with
  | NoData => TypeError
  | Data d =>
      match rooms_get s (f_roomCode d) with
      | None => Done s []
      | Some (c, room) =>
          if bool_decide (List.length (room_players room) ≠ 2%nat) then Done s []
          else
            let gs := gameState room in
            let gs' := {| player1Health := 100; player2Health := 100;
                          gameActive := true; currentTurn := player1;
                          round := round gs;
                          player1Wins := player1Wins gs;
                          player2Wins := player2Wins gs |} in
            Done {| rooms := <[c := with_room (room_players room) gs' now room]> (rooms s);
                    players := players s |}
                 [io_to_emit c (game_start (room_players room) gs')]
      end
  end.

(** Lines 273-290. *)
Definition on_restart_game (sid : string) (data : Payload) (now : Z) (s : State) : Outcome :=
  match data with
  | NoData => TypeError
  | Data d =>
      match rooms_get s (f_roomCode d) with
      | None => Done s []
      | Some (c, room) =>
          if bool_decide (List.length (room_players room) ≠ 2%nat) then Done s []
          else
            let gs := gameState room in
            let gs' := {| player1Health := 100; player2Health := 100;
                          gameActive := true; currentTurn := player1;
                          round := js_succ (round gs);
                          player1Wins := player1Wins gs;
                          player2Wins := player2Wins gs |} in
            Done {| rooms := <[c := with_room (room_players room) gs' now room]> (rooms s);
                    players := players s |}
                 [io_to_emit c (game_start (room_players room) gs')]
      end
  end.

(** The [switch] of lines 213-226; [u] is the draw of [Math.random()]. *)
Definition damage_of (action : jsval) (u : Z) : Z :=
  if is_str action "punch" then random_floor u 15 + 5
  else if is_str action "kick" then random_floor u 20 + 10
  else if is_str action "special" then random_floor u 25 + 15
  else 10.

(** Lines 229-233. *)
Definition apply_damage (player : jsval) (damage : Z) (gs : GameState) : GameState :=
  if is_str player "player1" then
    {| player1Health := player1Health gs;
       player2Health := Z.max 0 (player2Health gs - damage);
       gameActive := gameActive gs; currentTurn := currentTurn gs; round := round gs;
       player1Wins := player1Wins gs; player2Wins := player2Wins gs |}
  else
    {| player1Health := Z.max 0 (player1Health gs - damage);
       player2Health := player2Health gs;
       gameActive := gameActive gs; currentTurn := currentTurn gs; round := round gs;
       player1Wins := player1Wins gs; player2Wins := player2Wins gs |}.

(** Line 236. *)
Definition switch_turn (player : jsval) (gs : GameState) : GameState :=
  {| player1Health := player1Health gs; player2Health := player2Health gs;
     gameActive := gameActive gs;
     currentTurn := if is_str player "player1" then player2 else player1;
     round := round gs;
     player1Wins := player1Wins gs; player2Wins := player2Wins gs |}.

(** Lines 246-255. *)
Definition check_winner (gs : GameState) : option Seat * GameState :=
  if player1Health gs <=? 0 then
    (Some player2,
     {| player1Health := player1Health gs; player2Health := player2Health gs;
        gameActive := false; currentTurn := currentTurn gs; round := round gs;
        player1Wins := player1Wins gs; player2Wins := js_succ (player2Wins gs) |})
  else if player2Health gs <=? 0 then
    (Some player1,
     {| player1Health := player1Health gs; player2Health := player2Health gs;
        gameActive := false; currentTurn := currentTurn gs; round := round gs;
        player1Wins := js_succ (player1Wins gs); player2Wins := player2Wins gs |})
  else (None, gs).

(** Lines 202-203: the seat the caller is checked against. *)
Definition expectedTurn (room_first sid : string) : Seat :=
  if bool_decide (room_first = sid) then player1 else player2.

(** Lines 210-265, once the turn check has passed. *)
Definition resolve_action (c : string) (d : Fields) (now u : Z) (room : Room)
    : Room * list Effect :=
  let damage := damage_of (f_action d) u in
  let gs := switch_turn (f_player d) (apply_damage (f_player d) damage (gameState room)) in
  let '(winner, gs') := check_winner gs in
  (with_room (room_players room) gs' now room,
   [ io_to_emit c (game_action_msg (f_action d) (f_player d) damage);
     io_to_emit c (game_update (player1Health gs') (player2Health gs') (currentTurn gs')
                               winner (player1Wins gs') (player2Wins gs')) ]).

(** Lines 194-270. *)
Definition on_game_action (sid : string) (data : Payload) (now u : Z) (s : State) : Outcome :=
  match data with
  | NoData => TypeError
  | Data d =>
      match rooms_get s (f_roomCode d) with
      | None => Done s []
      | Some (c, room) =>
          if negb (gameActive (gameState room)) then Done s []
          else match players s !! sid with
               | None => Done s []
               | Some _ =>
                   match room_players room with
                   | [] => TypeError     (* room.players[0] is undefined *)
                   | first :: _ =>
                       if bool_decide (currentTurn (gameState room) ≠ expectedTurn first sid)
                       then Done s [socket_emit sid (error "Not your turn!")]
                       else
                         let '(room', out) := resolve_action c d now u room in
                         Done {| rooms := <[c := room']> (rooms s); players := players s |} out
                   end
               end
      end
  end.

(** Lines 23-31: the periodic sweep.  [room.lastActivity] is always a number,
    which [|| 0] leaves as it is. *)
Definition stale (now : Z) (kr : string * Room) : Prop :=
  List.length (room_players kr.2) = 0%nat ∧ now - lastActivity kr.2 > 5 * 60 * 1000.

Definition on_sweep (now : Z) (s : State) : Outcome :=
  Done {| rooms := filter (fun kr => ¬ stale now kr) (rooms s); players := players s |} [].

(** ** Events and runs *)

Inductive Event :=
  | connection (sid : string) (now : Z)
  | set_name (sid : string) (data : Payload)
  | create_room (sid : string) (draws : list Z) (t_created t_activity : Z)
  | join_room (sid : string) (data : Payload) (now : Z)
  | leave_room (sid : string) (data : Payload) (now : Z)
  | start_game (sid : string) (data : Payload) (now : Z)
  | game_action (sid : string) (data : Payload) (now u : Z)
  | restart_game (sid : string) (data : Payload) (now : Z)
  | disconnect (sid : string) (now : Z)
  | sweep (now : Z).

Definition handle (e : Event) (s : State) : Outcome :=
  match e with
  | connection sid now => on_connection sid now s
  | set_name sid data => on_set_name sid data s
  | create_room sid draws t1 t2 => on_create_room sid draws t1 t2 s
  | join_room sid data now => on_join_room sid data now s
  | leave_room sid data now => on_leave_room sid data now s
  | start_game sid data now => on_start_game sid data now s
  | game_action sid data now u => on_game_action sid data now u s
  | restart_game sid data now => on_restart_game sid data now s
  | disconnect sid now => on_disconnect sid now s
  | sweep now => on_sweep now s
  end.

(** States the server can be in: the empty maps it starts with, and whatever a
    handler that ran to completion leaves behind. *)
Inductive reachable : State -> Prop :=
  | reachable_initial : reachable initial
  | reachable_step s e s' out :
      reachable s -> handle e s = Done s' out -> reachable s'.

(** Running a list of events from a state; stops at the first exception. *)
Fixpoint run (es : list Event) (s : State) : Outcome :=
  match es with
  | [] => Done s []
  | e :: es' =>
      match handle e s with
      | Done s' out =>
          match run es' s' with
          | Done s'' out' => Done s'' (out ++ out')%list
          | o => o
          end
      | o => o
      end
  end.

(** ** Vocabulary of the properties *)

(** An upper-case letter, by its character code. *)
Definition is_upper (ch : ascii) : Prop :=
  (65 <= nat_of_ascii ch <= 90)%nat.

(** The [k]-th attempt of the generator on a list of draws. *)
Definition attempt (k : nat) (draws : list Z) : list Z :=
  take 4 (drop (4 * k) draws).

(** What every room in the store satisfies (section 3 of the design): a
    non-empty list of at most two players, health values within 0..100, and
    while the game is active two players with health left. *)
Definition room_ok (r : Room) : Prop :=
  room_players r <> [] /\
  (List.length (room_players r) <= 2)%nat /\
  0 <= player1Health (gameState r) <= 100 /\
  0 <= player2Health (gameState r) <= 100 /\
  (gameActive (gameState r) = true ->
     0 < player1Health (gameState r) /\ 0 < player2Health (gameState r) /\
     List.length (room_players r) = 2%nat).

(** A room is stored under its own code, which has four characters. *)
Definition entry_ok (c : string) (r : Room) : Prop :=
  String.length c = 4%nat /\ code r = c /\ room_ok r.

Definition rooms_ok (s : State) : Prop :=
  map_Forall entry_ok (rooms s).

(** The state a list of events leaves behind, from the empty server. *)
Definition state_after (es : list Event) : State :=
  match run es initial with
  | Done s _ => s
  | _ => initial
  end.

(** A [game_action] is accepted when it passes every guard of lines 195-208:
    the room [c] it names exists and is active, the caller is registered, and
    the seat of the caller holds the turn. *)
Definition accepted (sid : string) (d : Fields) (s : State) (c : string) (room : Room) : Prop :=
  f_roomCode d = JStr c /\
  rooms s !! c = Some room /\
  gameActive (gameState room) = true /\
  is_Some (players s !! sid) /\
  exists first rest,
    room_players room = first :: rest /\
    currentTurn (gameState room) = expectedTurn first sid.

(** The seat an action is aimed at (lines 229-233) is the one opposite the
    payload's [player] label. *)
Definition defender (d : Fields) : Seat :=
  if is_str (f_player d) "player1" then player2 else player1.

Definition health (t : Seat) (gs : GameState) : Z :=
  match t with player1 => player1Health gs | player2 => player2Health gs end.

Definition wins (t : Seat) (gs : GameState) : Z :=
  match t with player1 => player1Wins gs | player2 => player2Wins gs end.

(** Events whose payload, if they take one, is neither [undefined] nor
    [null], and whose name, for [set_name], can be converted to a string. *)
Definition structured (e : Event) : Prop :=
  match e with
  | set_name _ data => exists d, data = Data d /\ f_name d <> Unprintable
  | join_room _ data _ | leave_room _ data _
  | start_game _ data _ | game_action _ data _ _ | restart_game _ data _ =>
      data <> NoData
  | _ => True
  end.

(** The code generator comes back with a code on the draws of the event. *)
Definition generator_returns (e : Event) (s : State) : Prop :=
  match e with
  | create_room _ draws _ _ => is_Some (generateRoomCode (rooms s) draws)
  | _ => True
  end.

(** A payload of [set_name]. *)
Definition named (v : jsval) : Fields :=
  {| f_name := Printable v; f_roomCode := JUndefined;
     f_player := JUndefined; f_action := JUndefined |}.

(** A payload naming room [c], with a [player] label and an action. *)
Definition payload (c player action : string) : Fields :=
  {| f_name := Printable JUndefined; f_roomCode := JStr c;
     f_player := JStr player; f_action := JStr action |}.

(** Two connections, a room created by ["a"] with the code the draws
    0,0,0,0 give (AAAA), joined by ["b"]. *)
Definition lobby : list Event :=
  [ connection "a" 1; connection "b" 2;
    create_room "a" [0; 0; 0; 0] 3 4;
    join_room "b" (Data (payload "AAAA" "" "")) 5 ].

(** The same with the game started: seat A holds the turn. *)
Definition first_round : list Event :=
  (lobby ++ [ start_game "a" (Data (payload "AAAA" "" "")) 6 ])%list.

(** The same after a punch of seat A, landed with the largest draw. *)
Definition mid_game : list Event :=
  (first_round ++
   [ game_action "a" (Data (payload "AAAA" "player1" "punch")) 7 (two53 - 1) ])%list.

(** Room AAAA as [lobby] leaves it. *)
Definition lobby_room : Room :=
  {| code := "AAAA"; room_players := ["a"; "b"];
     gameState := new_gameState; createdAt := 3; lastActivity := 5 |}.

(** Room AAAA as [first_round] leaves it. *)
Definition first_round_room : Room :=
  {| code := "AAAA"; room_players := ["a"; "b"];
     gameState := {| player1Health := 100; player2Health := 100;
                     gameActive := true; currentTurn := player1; round := 1;
                     player1Wins := 0; player2Wins := 0 |};
     createdAt := 3; lastActivity := 6 |}.

(** The record of ["a"] while in room AAAA. *)
Definition player_a : Player :=
  {| player_id := "a"; player_name := JStr "Anonymous";
     player_room := Some "AAAA"; isPlayer1 := true; connectedAt := 1 |}.

(** Room AAAA as [mid_game] leaves it: the punch took 19 off seat B. *)
Definition mid_game_room : Room :=
  {| code := "AAAA"; room_players := ["a"; "b"];
     gameState := {| player1Health := 100; player2Health := 81;
                     gameActive := true; currentTurn := player2; round := 1;
                     player1Wins := 0; player2Wins := 0 |};
     createdAt := 3; lastActivity := 7 |}.

(** The game started and two specials of seat A's connection, both with the
    [player] field 'player2' and the largest draw: they land on seat A, which
    is down to 22 and still holds the turn. *)
Definition self_hits : list Event :=
  (first_round ++
   [ game_action "a" (Data (payload "AAAA" "player2" "special")) 7 (two53 - 1);
     game_action "a" (Data (payload "AAAA" "player2" "special")) 8 (two53 - 1) ])%list.

Definition self_hits_room : Room :=
  {| code := "AAAA"; room_players := ["a"; "b"];
     gameState := {| player1Health := 22; player2Health := 100;
                     gameActive := true; currentTurn := player1; round := 1;
                     player1Wins := 0; player2Wins := 0 |};
     createdAt := 3; lastActivity := 8 |}.

(** The turn indicator of room [c], if there is such a room. *)
Definition turn_in (s : State) (c : string) : option Seat :=
  match rooms s !! c with
  | Some r => Some (currentTurn (gameState r))
  | None => None
  end.


(** ** Vocabulary of the further properties *)

(** The connection an event comes from; the sweep comes from none. *)
Definition sender (e : Event) : option string :=
  match e with
  | connection sid _ | set_name sid _ | create_room sid _ _ _
  | join_room sid _ _ | leave_room sid _ _ | start_game sid _ _
  | game_action sid _ _ _ | restart_game sid _ _ | disconnect sid _ => Some sid
  | sweep _ => None
  end.

(** The room object of lines 78-92. *)
Definition created_room (sid roomCode : string) (t_created t_activity : Z) : Room :=
  {| code := roomCode; room_players := [sid]; gameState := new_gameState;
     createdAt := t_created; lastActivity := t_activity |}.

(** How the lasting fields of a room relate before and after one event: the
    code and the creation time stay, the round counter stays or goes up by
    one, no win counter goes down and together they gain at most one. *)
Definition room_evolves (r r' : Room) : Prop :=
  code r' = code r /\
  createdAt r' = createdAt r /\
  round (gameState r) <= round (gameState r') <= round (gameState r) + 1 /\
  player1Wins (gameState r) <= player1Wins (gameState r') /\
  player2Wins (gameState r) <= player2Wins (gameState r') /\
  player1Wins (gameState r') + player2Wins (gameState r')
    <= player1Wins (gameState r) + player2Wins (gameState r) + 1.

(** Room [c] is in the store and lists the connection [q]. *)
Definition listed (s : State) (q c : string) : Prop :=
  exists r, rooms s !! c = Some r /\ q ∈ room_players r.

(** The events that take [q] off a list: its own [leave_room] and
    [disconnect]. *)
Definition unlists (e : Event) (q : string) : Prop :=
  match e with
  | leave_room sid _ _ | disconnect sid _ => sid = q
  | _ => False
  end.

(** What the registry holds for a connection: a record with its own id, a
    name that is never falsy, and a room field that is [null] or names a room
    of the store that lists the connection. *)
Definition player_ok (s : State) (q : string) (p : Player) : Prop :=
  player_id p = q /\
  truthy (player_name p) = true /\
  forall c, player_room p = Some c -> listed s q c.

Definition players_ok (s : State) : Prop :=
  map_Forall (player_ok s) (players s).

(** The punch that leads from [first_round] to [mid_game]. *)
Definition first_punch : Event :=
  game_action "a" (Data (payload "AAAA" "player1" "punch")) 7 (two53 - 1).

(** The room an event can change: the one its payload names, for
    [leave_room] and [disconnect] the one in the caller's record (line 147
    does not look at the payload), for [create_room] the one it makes. *)
Definition target (e : Event) (s : State) : option string :=
  match e with
  | create_room _ draws _ _ => generateRoomCode (rooms s) draws
  | join_room _ (Data d) _ | start_game _ (Data d) _
  | game_action _ (Data d) _ _ | restart_game _ (Data d) _ =>
      match f_roomCode d with JStr c => Some c | _ => None end
  | leave_room sid _ _ | disconnect sid _ => room_of s sid
  | _ => None
  end.

(** Seat A asks for a second room while listed in AAAA; the first four
    draws give AAAA again, the next four AAAZ. *)
Definition second_room : Event :=
  create_room "a" [0; 0; 0; 0; 0; 0; 0; two53 - 1] 8 8.

(** The third connection of the scenarios, which joins no room. *)
Definition with_visitor : list Event :=
  (mid_game ++ [connection "z" 8])%list.

(** Two specials of seat A with the largest draw, each answered by a punch
    of seat B: seat B is down to 22 and seat A holds the turn. *)
Definition late_round : list Event :=
  (first_round ++
   [ game_action "a" (Data (payload "AAAA" "player1" "special")) 7 (two53 - 1);
     game_action "b" (Data (payload "AAAA" "player2" "punch")) 8 0;
     game_action "a" (Data (payload "AAAA" "player1" "special")) 9 (two53 - 1);
     game_action "b" (Data (payload "AAAA" "player2" "punch")) 10 0 ])%list.

Definition late_round_room : Room :=
  {| code := "AAAA"; room_players := ["a"; "b"];
     gameState := {| player1Health := 90; player2Health := 22;
                     gameActive := true; currentTurn := player1; round := 1;
                     player1Wins := 0; player2Wins := 0 |};
     createdAt := 3; lastActivity := 10 |}.

(** The special that ends that round. *)
Definition last_blow : Fields := payload "AAAA" "player1" "special".

(** What follows the last blow: a kick of the loser, a start of another
    room's code, a sweep. *)
Definition after_last_blow : list Event :=
  [ game_action "b" (Data (payload "AAAA" "player2" "kick")) 12 0;
    start_game "b" (Data (payload "ZZZZ" "" "")) 13;
    sweep 14 ].

(** The events that can set the game of room [c] going: a [start_game] or a
    [restart_game] whose payload names it. *)
Definition starts (c : string) (e : Event) : Prop :=
  match e with
  | start_game _ (Data d) _ | restart_game _ (Data d) _ => f_roomCode d = JStr c
  | _ => False
  end.

(** Room [c] is not in the store or its game is not active. *)
Definition idle (s : State) (c : string) : Prop :=
  forall r, rooms s !! c = Some r -> gameActive (gameState r) = false.

(** Seat A creates a second room and disconnects: room AAAA still lists it. *)
Definition orphaned : list Event :=
  (mid_game ++ [second_room; disconnect "a" 9])%list.

(** What follows: a late [leave_room] of the same id, the other player's
    disconnect and a sweep long after. *)
Definition afterwards : list Event :=
  [ leave_room "a" (Data (payload "AAAA" "" "")) 10;
    disconnect "b" 11;
    sweep 1000000000 ].


(** * Properties *)

(** ** Randomness and the code generator *)

Lemma two53_pos : 0 < two53.
Proof. unfold two53. lia. Qed.

(** Rounding to 53 bits moves a whole number up by no more than its 2^53-th
    part, and never across a multiple of 2^53, which is a double. *)
Lemma round53_spec m :
  0 <= m < two53 * two53 ->
  round53 m <= m + m / two53 /\
  forall j, j * two53 <= m -> j * two53 <= round53 m.
Proof.
  intros [Hm0 Hm1]. pose proof two53_pos as HT. unfold round53.
  destruct (Z.leb_spec (Z.log2 m - 52) 0) as [Hk|Hk].
  - split; [|auto]. pose proof (Z.div_pos m two53 Hm0 HT). lia.
  - assert (Hpos : 0 < m).
    { destruct (Z.eq_dec m 0) as [->|]; [|lia].
      rewrite Z.log2_nonpos in Hk by lia. lia. }
    destruct (Z.log2_spec m Hpos) as [Hlo Hhi].
    remember (Z.log2 m - 52) as k eqn:Ek.
    pose proof Hlo as Hlo0.
    assert (EL : Z.log2 m = (k - 1) + 53) by lia. rewrite EL in Hlo.
    rewrite Z.pow_add_r in Hlo by lia. fold two53 in Hlo.
    assert (Hk53 : k <= 53).
    { apply Z.nlt_ge. intros Hgt.
      assert (two53 * two53 <= 2 ^ (Z.log2 m)); [|lia].
      unfold two53. rewrite <- Z.pow_add_r by lia.
      apply Z.pow_le_mono_r; lia. }
    assert (Hh : 0 < 2 ^ (k - 1)) by (apply Z.pow_pos_nonneg; lia).
    assert (HP : 2 ^ k = 2 * 2 ^ (k - 1)).
    { replace k with (Z.succ (k - 1)) at 1 by lia. apply Z.pow_succ_r. lia. }
    assert (HTP : two53 = 2 ^ k * 2 ^ (53 - k)).
    { unfold two53. rewrite <- Z.pow_add_r by lia. f_equal. lia. }
    assert (Hc : 0 < 2 ^ (53 - k)) by (apply Z.pow_pos_nonneg; lia).
    remember (2 ^ (k - 1)) as h eqn:Eh. remember (2 ^ k) as P eqn:EP.
    remember (2 ^ (53 - k)) as c eqn:Ec.
    assert (HP0 : 0 < P) by lia.
    pose proof (Z.div_mod m P ltac:(lia)) as Hdm.
    pose proof (Z.mod_pos_bound m P HP0) as Hr.
    assert (Hhm : h <= m / two53).
    { apply Z.div_le_lower_bound; lia. }
    assert (Hbelow : forall j, j * two53 <= m -> j * two53 <= m / P * P).
    { intros j Hj. assert (j * c <= m / P).
      { apply Z.div_le_lower_bound; [lia|]. rewrite HTP in Hj. lia. }
      rewrite HTP. nia. }
    assert (Hup : m / P * P <= (m / P + 1) * P) by lia.
    repeat case_match; (split; [|intros j Hj; specialize (Hbelow j Hj)]); try lia.
Qed.

Lemma random_floor_range u n : 0 < n <= two53 -> 0 <= random_floor u n < n.
Proof.
  intros Hn. unfold random_floor.
  pose proof two53_pos as Hp.
  pose proof (Z.mod_pos_bound u two53 Hp) as Hu.
  assert (Hm : 0 <= (u mod two53) * n < two53 * two53) by nia.
  destruct (round53_spec _ Hm) as [Hup Hdown].
  assert (Hq : (u mod two53) * n / two53 <= n - 1).
  { apply Z.lt_succ_r. apply Z.div_lt_upper_bound; nia. }
  split.
  - apply Z.div_pos; [|lia]. apply (Hdown 0). lia.
  - apply Z.div_lt_upper_bound; [lia|]. nia.
Qed.

Lemma random_floor_small u n : 0 < n <= 64 -> 0 <= random_floor u n < n.
Proof. intros Hn. apply random_floor_range. unfold two53. lia. Qed.

(** The draws mapped to index [i] are those of the [i]-th of [n] equal parts
    of the unit interval, up to the draw at the upper end of each part, which
    the rounding of the product can move to the next index. *)
Lemma random_floor_interval u n i :
  0 < n <= two53 ->
  (i * two53 <= (u mod two53) * n < (i + 1) * two53 - n -> random_floor u n = i) /\
  (random_floor u n = i -> i * two53 - n < (u mod two53) * n < (i + 1) * two53).
Proof.
  intros Hn. unfold random_floor.
  pose proof two53_pos as Hp.
  pose proof (Z.mod_pos_bound u two53 Hp) as Hu.
  assert (Hm : 0 <= (u mod two53) * n < two53 * two53) by nia.
  destruct (round53_spec _ Hm) as [Hup Hdown].
  assert (Hq : (u mod two53) * n / two53 <= n - 1).
  { apply Z.lt_succ_r. apply Z.div_lt_upper_bound; nia. }
  split.
  - intros [Hlo Hhi]. symmetry.
    apply Z.div_unique with (round53 ((u mod two53) * n) - i * two53); [|lia].
    specialize (Hdown i Hlo). lia.
  - intros <-.
    pose proof (Z.mul_div_le (round53 ((u mod two53) * n)) two53 Hp) as H1.
    pose proof (Z.mul_succ_div_gt (round53 ((u mod two53) * n)) two53 Hp) as H2.
    split; [lia|].
    apply Z.nle_gt. intros Hge.
    specialize (Hdown (round53 ((u mod two53) * n) / two53 + 1) Hge). lia.
Qed.

Lemma charAt_chars i :
  0 <= i < 26 -> exists ch, charAt chars i = String ch "" /\ is_upper ch.
Proof.
  intros Hi.
  assert (Hn : exists n : nat, (n < 26)%nat /\ i = Z.of_nat n).
  { exists (Z.to_nat i). lia. }
  destruct Hn as (n & Hn & ->).
  do 26 (destruct n as [|n]; [eexists; split; [reflexivity | unfold is_upper; vm_compute; lia] |]).
  lia.
Qed.

Lemma random_char_upper u : exists ch, random_char u = String ch "" /\ is_upper ch.
Proof.
  unfold random_char. apply charAt_chars.
  change (Z.of_nat (String.length chars)) with 26.
  apply random_floor_small. lia.
Qed.

Lemma draw_code_four u0 u1 u2 u3 :
  exists a b c d,
    draw_code [u0; u1; u2; u3] = String a (String b (String c (String d ""))) /\
    is_upper a /\ is_upper b /\ is_upper c /\ is_upper d.
Proof.
  destruct (random_char_upper u0) as (a & Ha & ?).
  destruct (random_char_upper u1) as (b & Hb & ?).
  destruct (random_char_upper u2) as (c & Hc & ?).
  destruct (random_char_upper u3) as (d & Hd & ?).
  exists a, b, c, d. unfold draw_code. simpl. rewrite Ha, Hb, Hc, Hd. simpl. auto.
Qed.

Lemma charAt_chars_code i :
  0 <= i < 26 -> charAt chars i = String (ascii_of_nat (Z.to_nat (65 + i))) "".
Proof.
  intros Hi.
  assert (Hn : exists n : nat, (n < 26)%nat /\ i = Z.of_nat n).
  { exists (Z.to_nat i). lia. }
  destruct Hn as (n & Hn & ->).
  do 26 (destruct n as [|n]; [reflexivity |]).
  lia.
Qed.

Lemma charAt_chars_inj i j :
  0 <= i < 26 -> 0 <= j < 26 -> charAt chars i = charAt chars j -> i = j.
Proof.
  intros Hi Hj. rewrite !charAt_chars_code by assumption.
  intros Heq. injection Heq as Heq.
  apply (f_equal nat_of_ascii) in Heq.
  rewrite !nat_ascii_embedding in Heq by lia. lia.
Qed.

(** Each letter is picked by the draws of one of 26 equal parts of [0, 1),
    up to the one draw at the upper end of a part. *)
Lemma random_char_interval u i :
  0 <= i < 26 ->
  (i * two53 <= (u mod two53) * 26 < (i + 1) * two53 - 26 ->
   random_char u = charAt chars i) /\
  (random_char u = charAt chars i ->
   i * two53 - 26 < (u mod two53) * 26 < (i + 1) * two53).
Proof.
  intros Hi.
  assert (H26 : 0 < 26 <= two53) by (unfold two53; lia).
  destruct (random_floor_interval u 26 i H26) as [Hin Hout].
  unfold random_char. change (Z.of_nat (String.length chars)) with 26.
  split.
  - intros H. rewrite (Hin H). reflexivity.
  - intros H. apply Hout.
    apply charAt_chars_inj; [apply random_floor_small; lia | exact Hi | exact H].
Qed.

Lemma generateRoomCode_unfold rs u0 u1 u2 u3 rest :
  generateRoomCode rs (u0 :: u1 :: u2 :: u3 :: rest) =
  if decide (is_Some (rs !! draw_code [u0; u1; u2; u3]))
  then generateRoomCode rs rest
  else Some (draw_code [u0; u1; u2; u3]).
Proof. reflexivity. Qed.

Lemma attempt_next k u0 u1 u2 u3 rest :
  attempt (S k) (u0 :: u1 :: u2 :: u3 :: rest) = attempt k rest.
Proof.
  unfold attempt. replace (4 * S k)%nat with (S (S (S (S (4 * k))))) by lia.
  reflexivity.
Qed.

(** What the generator returns is a fresh code of four upper-case letters, and
    it returns unless every attempt the draws allow hit a code in use. *)
Lemma generateRoomCode_result rs n : forall draws,
  (List.length draws <= n)%nat ->
  match generateRoomCode rs draws with
  | Some c =>
      String.length c = 4%nat /\
      Forall is_upper (list_ascii_of_string c) /\
      rs !! c = None
  | None =>
      forall k, (4 * (k + 1) <= List.length draws)%nat ->
                is_Some (rs !! draw_code (attempt k draws))
  end.
Proof.
  induction n as [|n IH]; intros draws Hlen.
  - destruct draws; [|simpl in Hlen; lia]. simpl. intros k Hk. simpl in Hk. lia.
  - destruct draws as [|u0 [|u1 [|u2 [|u3 rest]]]];
      try (simpl; intros k Hk; simpl in Hk; lia).
    rewrite generateRoomCode_unfold.
    destruct (decide (is_Some (rs !! draw_code [u0; u1; u2; u3]))) as [Hin|Hout].
    + specialize (IH rest). simpl in Hlen.
      destruct (generateRoomCode rs rest) as [c|].
      * apply IH. lia.
      * intros [|k] Hk.
        -- exact Hin.
        -- rewrite attempt_next. apply IH; [lia|]. simpl in Hk. lia.
    + destruct (draw_code_four u0 u1 u2 u3) as (a & b & c & d & Heq & Ha & Hb & Hc & Hd).
      rewrite Heq in *.
      split; [reflexivity|]. split.
      * simpl. repeat (apply Forall_cons; split; [assumption|]). apply Forall_nil_2.
      * apply eq_None_not_Some. exact Hout.
Qed.

(** The generator returns the code of the first attempt no room has. *)
Lemma generateRoomCode_first rs n : forall draws,
  (List.length draws <= n)%nat ->
  forall c, generateRoomCode rs draws = Some c ->
  exists k,
    (4 * (k + 1) <= List.length draws)%nat /\
    c = draw_code (attempt k draws) /\
    forall j, (j < k)%nat -> is_Some (rs !! draw_code (attempt j draws)).
Proof.
  induction n as [|n IH]; intros draws Hle c.
  - destruct draws; [discriminate | simpl in Hle; lia].
  - destruct draws as [|u0 [|u1 [|u2 [|u3 rest]]]]; try discriminate.
    rewrite generateRoomCode_unfold.
    destruct (decide (is_Some (rs !! draw_code [u0; u1; u2; u3]))) as [Hin|Hout].
    + intros Hrest. simpl in Hle.
      destruct (IH rest ltac:(lia) c Hrest) as (k & Hk & Hc & Hbefore).
      exists (S k). split; [cbn [List.length]; lia|]. rewrite attempt_next.
      split; [exact Hc|].
      intros [|j] Hj; [exact Hin|]. rewrite attempt_next. apply Hbefore. lia.
    + intros [= <-]. exists 0%nat. split; [simpl; lia|].
      split; [reflexivity|]. intros j Hj. lia.
Qed.

Lemma attempt_four k (draws : list Z) :
  (4 * (k + 1) <= List.length draws)%nat ->
  exists u0 u1 u2 u3, attempt k draws = [u0; u1; u2; u3].
Proof.
  intros Hk. unfold attempt.
  assert (Hlen : List.length (take 4 (drop (4 * k) draws)) = 4%nat).
  { rewrite length_take, length_drop. lia. }
  destruct (take 4 (drop (4 * k) draws)) as [|u0 [|u1 [|u2 [|u3 [|u4 rest]]]]];
    try discriminate.
  eauto.
Qed.

Lemma draw_code_letters u0 u1 u2 u3 :
  draw_code [u0; u1; u2; u3] =
  String (ascii_of_nat (Z.to_nat (65 + random_floor u0 26)))
    (String (ascii_of_nat (Z.to_nat (65 + random_floor u1 26)))
       (String (ascii_of_nat (Z.to_nat (65 + random_floor u2 26)))
          (String (ascii_of_nat (Z.to_nat (65 + random_floor u3 26))) ""))).
Proof.
  unfold draw_code, random_char. cbn [fold_left].
  change (Z.of_nat (String.length chars)) with 26.
  rewrite !charAt_chars_code by (apply random_floor_small; lia).
  reflexivity.
Qed.

(** C9: every generated room code has length 4, consists of letters A-Z,
    each the letter [Math.floor(Math.random() * 26)] picks for one of the
    four draws of an attempt, and is not the code of a room in the store; it
    is the code of the first attempt no room has, every attempt before it
    having drawn a code in use, so the generator returns unless every attempt
    the draws allow hit a code in use.  The letters are uniform in that
    letter number [i] is picked by the draws of the [i]-th of 26 equal parts
    of the range of [Math.random()], up to the one draw at the upper end of
    each part, which the rounding of the product can give to the next
    letter. *)
Theorem generateRoomCode_fresh_four_letters (rs : gmap string Room) (draws : list Z) :
  let letter := fun u => ascii_of_nat (Z.to_nat (65 + random_floor u 26)) in
  let word := fun us =>
    match us with
    | [u0; u1; u2; u3] =>
        String (letter u0) (String (letter u1) (String (letter u2) (String (letter u3) "")))
    | _ => ""
    end in
  (forall u i,
     (i * two53 <= (u mod two53) * 26 < (i + 1) * two53 - 26 -> random_floor u 26 = i) /\
     (random_floor u 26 = i ->
      0 <= i < 26 /\ i * two53 - 26 < (u mod two53) * 26 < (i + 1) * two53)) /\
  match generateRoomCode rs draws with
  | Some c =>
      (exists k,
         (4 * (k + 1) <= List.length draws)%nat /\
         c = word (take 4 (drop (4 * k) draws)) /\
         forall j, (j < k)%nat -> is_Some (rs !! word (take 4 (drop (4 * j) draws)))) /\
      String.length c = 4%nat /\
      Forall is_upper (list_ascii_of_string c) /\
      rs !! c = None
  | None =>
      forall k, (4 * (k + 1) <= List.length draws)%nat ->
                is_Some (rs !! word (take 4 (drop (4 * k) draws)))
  end.
Proof.
  intros letter word.
  assert (Hword : forall k, (4 * (k + 1) <= List.length draws)%nat ->
            draw_code (attempt k draws) = word (take 4 (drop (4 * k) draws))).
  { intros k Hk. destruct (attempt_four k draws Hk) as (u0 & u1 & u2 & u3 & Hat).
    unfold attempt in *. rewrite Hat. apply draw_code_letters. }
  assert (H26 : 0 < 26 <= two53) by (unfold two53; lia).
  split.
  - intros u i. destruct (random_floor_interval u 26 i H26) as [Hin Hout].
    split; [exact Hin|]. intros Hi. split; [|exact (Hout Hi)].
    rewrite <- Hi. apply random_floor_small. lia.
  - pose proof (generateRoomCode_result rs _ draws (Nat.le_refl _)) as Hres.
    pose proof (generateRoomCode_first rs _ draws (Nat.le_refl _)) as Hfirst.
    destruct (generateRoomCode rs draws) as [c|].
    + destruct Hres as (Hlen & Hup & Hfresh).
      destruct (Hfirst c eq_refl) as (k & Hk & Hc & Hbefore).
      split; [|auto]. exists k. split; [exact Hk|].
      split; [rewrite <- Hword by exact Hk; exact Hc|].
      intros j Hj. rewrite <- Hword by lia. by apply Hbefore.
    + intros k Hk. rewrite <- Hword by exact Hk. by apply Hres.
Qed.

(** ** Damage *)

Lemma damage_of_default action u :
  action <> JStr "punch" -> action <> JStr "kick" -> action <> JStr "special" ->
  damage_of action u = 10.
Proof.
  intros H1 H2 H3. unfold damage_of, is_str.
  rewrite !bool_decide_eq_false_2 by assumption. reflexivity.
Qed.

Lemma damage_of_positive action u : 5 <= damage_of action u <= 39.
Proof.
  unfold damage_of.
  pose proof (random_floor_small u 15). pose proof (random_floor_small u 20).
  pose proof (random_floor_small u 25).
  repeat case_match; lia.
Qed.

(** C1: the damage of a punch lies in [5,19], of a kick in [10,29] and of a
    special in [15,39], the largest draw giving 19, 29 and 39: the upper ends
    20, 30 and 40 named at lines 216-222 are never dealt.  Any other action
    deals 10. *)
Theorem damage_of_ranges (u : Z) :
  (5 <= damage_of (JStr "punch") u <= 19 /\
   10 <= damage_of (JStr "kick") u <= 29 /\
   15 <= damage_of (JStr "special") u <= 39) /\
  (damage_of (JStr "punch") (two53 - 1) = 19 /\
   damage_of (JStr "kick") (two53 - 1) = 29 /\
   damage_of (JStr "special") (two53 - 1) = 39) /\
  (forall action,
     action <> JStr "punch" -> action <> JStr "kick" -> action <> JStr "special" ->
     damage_of action u = 10).
Proof.
  pose proof (random_floor_small u 15). pose proof (random_floor_small u 20).
  pose proof (random_floor_small u 25).
  split; [|split].
  - unfold damage_of; simpl. lia.
  - repeat split; vm_compute; reflexivity.
  - intros action. apply damage_of_default.
Qed.

(** ** The invariant of the room store *)

Section Invariant.

Lemma without_length sid ps : (List.length (without sid ps) <= List.length ps)%nat.
Proof. unfold without. apply length_filter. Qed.

Lemma length_zero_nil {A} (l : list A) : (List.length l =? 0)%nat = false -> l <> [].
Proof. destruct l; [discriminate | intros _; discriminate]. Qed.

Lemma rooms_ok_set s c r ps :
  rooms_ok s -> entry_ok c r ->
  rooms_ok {| rooms := <[c := r]> (rooms s); players := ps |}.
Proof. unfold rooms_ok; simpl. intros Hs Hr. by apply map_Forall_insert_2. Qed.

Lemma rooms_ok_delete s c ps :
  rooms_ok s -> rooms_ok {| rooms := delete c (rooms s); players := ps |}.
Proof. unfold rooms_ok; simpl. apply map_Forall_delete. Qed.

Lemma rooms_ok_same s ps :
  rooms_ok s -> rooms_ok {| rooms := rooms s; players := ps |}.
Proof. unfold rooms_ok; simpl; auto. Qed.

Lemma rooms_ok_lookup s c r : rooms_ok s -> rooms s !! c = Some r -> entry_ok c r.
Proof. intros Hs Hc. exact (map_Forall_lookup_1 _ _ _ _ Hs Hc). Qed.

Lemma rooms_get_Some s key c r :
  rooms_get s key = Some (c, r) -> key = JStr c /\ rooms s !! c = Some r.
Proof.
  unfold rooms_get. destruct key; try discriminate.
  destruct (rooms s !! s0) eqn:E; [|discriminate].
  intros [= <- <-]. auto.
Qed.

Lemma resolve_action_ok c d now u room :
  entry_ok c room -> gameActive (gameState room) = true ->
  entry_ok c (resolve_action c d now u room).1.
Proof.
  intros (Hk & Hcode & Hne & Hlen & H1 & H2 & Hact) Ha.
  destruct (Hact Ha) as (Hp1 & Hp2 & Hl2).
  pose proof (damage_of_positive (f_action d) u) as Hd.
  unfold resolve_action, check_winner, switch_turn, apply_damage.
  destruct (is_str (f_player d) "player1"); simpl;
    repeat case_match; simplify_eq/=; unfold entry_ok, room_ok; simpl;
    repeat split; try assumption; try congruence; lia.
Qed.

Lemma on_create_room_ok sid draws t1 t2 s s' out :
  rooms_ok s -> on_create_room sid draws t1 t2 s = Done s' out -> rooms_ok s'.
Proof.
  intros Hs. unfold on_create_room.
  destruct (players s !! sid); [|intros [= <- <-]; exact Hs].
  pose proof (generateRoomCode_result (rooms s) _ draws (Nat.le_refl _)) as Hg.
  destruct (generateRoomCode (rooms s) draws) as [c|]; [|discriminate].
  destruct Hg as (Hlen & _ & _).
  intros [= <- <-]. apply rooms_ok_set; [exact Hs|].
  unfold entry_ok, room_ok, new_gameState; simpl. split_and!; try lia; try congruence.
Qed.

Lemma on_join_room_ok sid data now s s' out :
  rooms_ok s -> on_join_room sid data now s = Done s' out -> rooms_ok s'.
Proof.
  intros Hs. unfold on_join_room.
  destruct (players s !! sid); [|intros [= <- <-]; exact Hs].
  destruct data as [|d]; [discriminate|].
  destruct (rooms_get s (f_roomCode d)) as [[c room]|] eqn:Hget;
    [|intros [= <- <-]; exact Hs].
  apply rooms_get_Some in Hget as [_ Hc].
  destruct (2 <=? List.length (room_players room))%nat eqn:Hfull;
    intros [= <- <-]; [exact Hs|].
  apply Nat.leb_gt in Hfull.
  destruct (rooms_ok_lookup _ _ _ Hs Hc) as (Hk & Hcode & Hne & Hlen & H1 & H2 & Hact).
  apply rooms_ok_set; [exact Hs|].
  unfold entry_ok, room_ok; simpl. rewrite length_app; simpl.
  split_and!; try assumption; try lia.
  - destruct (room_players room); discriminate.
  - intros Ha. destruct (Hact Ha) as (_ & _ & Hl). lia.
Qed.

Lemma on_leave_room_ok sid data now s s' out :
  rooms_ok s -> on_leave_room sid data now s = Done s' out -> rooms_ok s'.
Proof.
  intros Hs. unfold on_leave_room.
  destruct (room_of s sid) as [c|]; [|intros [= <- <-]; exact Hs].
  destruct (players s !! sid); [|intros [= <- <-]; exact Hs].
  destruct (rooms s !! c) as [room|] eqn:Hc.
  - pose proof (without_length sid (room_players room)) as Hw.
    destruct (rooms_ok_lookup _ _ _ Hs Hc) as (Hk & Hcode & Hne & Hlen & H1 & H2 & Hact).
    destruct (List.length (without sid (room_players room)) =? 0)%nat eqn:Hz;
      (destruct data; [discriminate|]); intros [= <- <-].
    + by apply rooms_ok_delete.
    + apply rooms_ok_set; [exact Hs|].
      unfold entry_ok, room_ok; simpl.
      split_and!; try assumption; try lia; try congruence. by apply length_zero_nil.
  - destruct data; [discriminate|]. intros [= <- <-]. by apply rooms_ok_same.
Qed.

Lemma on_disconnect_ok sid now s s' out :
  rooms_ok s -> on_disconnect sid now s = Done s' out -> rooms_ok s'.
Proof.
  intros Hs. unfold on_disconnect.
  destruct (room_of s sid) as [c|]; [|intros [= <- <-]; by apply rooms_ok_same].
  destruct (rooms s !! c) as [room|] eqn:Hc;
    [|intros [= <- <-]; by apply rooms_ok_same].
  pose proof (without_length sid (room_players room)) as Hw.
  destruct (rooms_ok_lookup _ _ _ Hs Hc) as (Hk & Hcode & Hne & Hlen & H1 & H2 & Hact).
  destruct (List.length (without sid (room_players room)) =? 0)%nat eqn:Hz;
    intros [= <- <-].
  - by apply rooms_ok_delete.
  - apply rooms_ok_set; [exact Hs|].
    unfold entry_ok, room_ok; simpl.
    split_and!; try assumption; try lia; try congruence. by apply length_zero_nil.
Qed.

Lemma on_start_game_ok sid data now s s' out :
  rooms_ok s -> on_start_game sid data now s = Done s' out -> rooms_ok s'.
Proof.
  intros Hs. unfold on_start_game.
  destruct data as [|d]; [discriminate|].
  destruct (rooms_get s (f_roomCode d)) as [[c room]|] eqn:Hget;
    [|intros [= <- <-]; exact Hs].
  apply rooms_get_Some in Hget as [_ Hc].
  case_bool_decide as Hl; intros [= <- <-]; [exact Hs|].
  apply rooms_ok_set; [exact Hs|].
  destruct (rooms_ok_lookup _ _ _ Hs Hc) as (Hk & Hcode & _).
  unfold entry_ok, room_ok; simpl. rewrite Hl.
  split_and!; try assumption; try lia. intros E. by rewrite E in Hl.
Qed.

Lemma on_restart_game_ok sid data now s s' out :
  rooms_ok s -> on_restart_game sid data now s = Done s' out -> rooms_ok s'.
Proof.
  intros Hs. unfold on_restart_game.
  destruct data as [|d]; [discriminate|].
  destruct (rooms_get s (f_roomCode d)) as [[c room]|] eqn:Hget;
    [|intros [= <- <-]; exact Hs].
  apply rooms_get_Some in Hget as [_ Hc].
  case_bool_decide as Hl; intros [= <- <-]; [exact Hs|].
  apply rooms_ok_set; [exact Hs|].
  destruct (rooms_ok_lookup _ _ _ Hs Hc) as (Hk & Hcode & _).
  unfold entry_ok, room_ok; simpl. rewrite Hl.
  split_and!; try assumption; try lia. intros E. by rewrite E in Hl.
Qed.

Lemma on_game_action_ok sid data now u s s' out :
  rooms_ok s -> on_game_action sid data now u s = Done s' out -> rooms_ok s'.
Proof.
  intros Hs. unfold on_game_action.
  destruct data as [|d]; [discriminate|].
  destruct (rooms_get s (f_roomCode d)) as [[c room]|] eqn:Hget;
    [|intros [= <- <-]; exact Hs].
  apply rooms_get_Some in Hget as [_ Hc].
  destruct (gameActive (gameState room)) eqn:Ha; simpl;
    [|intros [= <- <-]; exact Hs].
  destruct (players s !! sid); [|intros [= <- <-]; exact Hs].
  destruct (room_players room) as [|first rest] eqn:Hps; [discriminate|].
  case_bool_decide; [intros [= <- <-]; exact Hs|].
  pose proof (resolve_action_ok c d now u room (rooms_ok_lookup _ _ _ Hs Hc) Ha) as Hr.
  destruct (resolve_action c d now u room) as [room' out'].
  intros [= <- <-]. by apply rooms_ok_set.
Qed.

Lemma on_sweep_ok now s s' out :
  rooms_ok s -> on_sweep now s = Done s' out -> rooms_ok s'.
Proof.
  intros Hs [= <- <-]. unfold rooms_ok; simpl.
  intros c r Hc. apply map_lookup_filter_Some in Hc as [Hc _].
  exact (rooms_ok_lookup _ _ _ Hs Hc).
Qed.

(** Every handler that runs to completion keeps the invariant. *)
Lemma handle_ok e s s' out :
  rooms_ok s -> handle e s = Done s' out -> rooms_ok s'.
Proof.
  intros Hs. destruct e; simpl.
  - intros [= <- <-]. by apply rooms_ok_same.
  - unfold on_set_name. destruct (players s !! sid); [|intros [= <- <-]; exact Hs].
    destruct data as [|d]; [discriminate|]. destruct (f_name d); [|discriminate].
    intros [= <- <-]. by apply rooms_ok_same.
  - by apply on_create_room_ok.
  - by apply on_join_room_ok.
  - by apply on_leave_room_ok.
  - by apply on_start_game_ok.
  - by apply on_game_action_ok.
  - by apply on_restart_game_ok.
  - by apply on_disconnect_ok.
  - by apply on_sweep_ok.
Qed.

Lemma reachable_ok s : reachable s -> rooms_ok s.
Proof.
  induction 1 as [|s e s' out _ IH Hstep].
  - unfold rooms_ok, initial; simpl. apply map_Forall_empty.
  - exact (handle_ok _ _ _ _ IH Hstep).
Qed.

End Invariant.

(** ** Runs *)

Lemma run_reachable es : forall s s' out,
  reachable s -> run es s = Done s' out -> reachable s'.
Proof.
  induction es as [|e es IH]; intros s s' out Hs; simpl.
  - intros [= <- _]. exact Hs.
  - destruct (handle e s) as [s1 out1| |] eqn:He; try discriminate.
    destruct (run es s1) as [s2 out2| |] eqn:Hr; try discriminate.
    intros [= <- _]. eapply IH; [|exact Hr].
    eapply reachable_step; [exact Hs | exact He].
Qed.

Lemma state_after_reachable es : reachable (state_after es).
Proof.
  unfold state_after.
  destruct (run es initial) as [s out| |] eqn:Hr; try apply reachable_initial.
  eapply run_reachable; [apply reachable_initial | exact Hr].
Qed.

(** ** Joining *)

(** C7: in every reachable state each room lists at most two players; a
    [join_room] of a registered caller on a room that lists two answers
    [room_full] to the caller alone and leaves the state as it is, and on a
    code with no room it answers [room_not_found] and leaves the state as it
    is. *)
Theorem join_room_bounded (s : State) (sid : string) (p : Player) (d : Fields) (now : Z) :
  reachable s ->
  players s !! sid = Some p ->
  (forall c r, rooms s !! c = Some r -> (List.length (room_players r) <= 2)%nat) /\
  (forall c r, f_roomCode d = JStr c -> rooms s !! c = Some r ->
               List.length (room_players r) = 2%nat ->
               on_join_room sid (Data d) now s = Done s [socket_emit sid room_full]) /\
  ((forall c, f_roomCode d = JStr c -> rooms s !! c = None) ->
   on_join_room sid (Data d) now s = Done s [socket_emit sid room_not_found]).
Proof.
  intros Hs Hp. split_and!.
  - intros c r Hc.
    destruct (rooms_ok_lookup _ _ _ (reachable_ok _ Hs) Hc) as (_ & _ & _ & Hlen & _).
    exact Hlen.
  - intros c r Hd Hc Hlen. unfold on_join_room, rooms_get.
    rewrite Hp, Hd, Hc, Hlen. reflexivity.
  - intros Hnone. unfold on_join_room, rooms_get. rewrite Hp.
    destruct (f_roomCode d) as [| | | |c|]; try reflexivity.
    rewrite (Hnone c eq_refl). reflexivity.
Qed.

Lemma join_room_bounded_witness :
  players (state_after lobby) !! "b" = Some
    {| player_id := "b"; player_name := JStr "Anonymous";
       player_room := Some "AAAA"; isPlayer1 := false; connectedAt := 2 |} /\
  on_join_room "b" (Data (payload "AAAA" "" "")) 9 (state_after lobby)
    = Done (state_after lobby) [socket_emit "b" room_full] /\
  on_join_room "b" (Data (payload "ZZZZ" "" "")) 9 (state_after lobby)
    = Done (state_after lobby) [socket_emit "b" room_not_found].
Proof.
  assert (Hp : players (state_after lobby) !! "b" = Some
    {| player_id := "b"; player_name := JStr "Anonymous";
       player_room := Some "AAAA"; isPlayer1 := false; connectedAt := 2 |})
    by (vm_compute; reflexivity).
  split; [exact Hp|]. split.
  - destruct (join_room_bounded (state_after lobby) "b" _ (payload "AAAA" "" "") 9
                (state_after_reachable lobby) Hp) as (_ & Hfull & _).
    eapply Hfull; vm_compute; reflexivity.
  - destruct (join_room_bounded (state_after lobby) "b" _ (payload "ZZZZ" "" "") 9
                (state_after_reachable lobby) Hp) as (_ & _ & Hnone).
    apply Hnone. intros c [= <-]. vm_compute; reflexivity.
Defined.

(** ** Starting a round *)

Lemma js_succ_below x : x < two53 -> js_succ x = x + 1.
Proof. intros H. unfold js_succ. destruct (Z.ltb_spec x two53); [reflexivity | lia]. Qed.

Lemma js_succ_bounds x : x <= js_succ x <= x + 1.
Proof. unfold js_succ. destruct (Z.ltb_spec x two53); lia. Qed.

(** C8: when the store has a room of exactly two players under the code the
    payload names, [start_game] sets both health values to 100, the active
    flag, and the turn to seat A, and keeps the round counter; [restart_game]
    does the same and adds one to the round counter (a counter below 2^53,
    which a double can still count up from).  When the store has no room
    under that code, or one that does not list exactly two players, both
    leave the state as it is and send nothing. *)
Theorem start_and_restart (s : State) (sid : string) (d : Fields) (now : Z) :
  (forall c room,
     f_roomCode d = JStr c ->
     rooms s !! c = Some room ->
     List.length (room_players room) = 2%nat ->
     round (gameState room) < two53 ->
     exists r1 r2,
       on_start_game sid (Data d) now s =
         Done {| rooms := <[c := r1]> (rooms s); players := players s |}
              [io_to_emit c (game_start (room_players room) (gameState r1))] /\
       on_restart_game sid (Data d) now s =
         Done {| rooms := <[c := r2]> (rooms s); players := players s |}
              [io_to_emit c (game_start (room_players room) (gameState r2))] /\
       (player1Health (gameState r1) = 100 /\ player2Health (gameState r1) = 100 /\
        gameActive (gameState r1) = true /\ currentTurn (gameState r1) = player1 /\
        round (gameState r1) = round (gameState room)) /\
       (player1Health (gameState r2) = 100 /\ player2Health (gameState r2) = 100 /\
        gameActive (gameState r2) = true /\ currentTurn (gameState r2) = player1 /\
        round (gameState r2) = round (gameState room) + 1) /\
       (player1Wins (gameState r1) = player1Wins (gameState room) /\
        player2Wins (gameState r1) = player2Wins (gameState room) /\
        room_players r1 = room_players room /\ code r1 = code room /\
        createdAt r1 = createdAt room /\ lastActivity r1 = now) /\
       (player1Wins (gameState r2) = player1Wins (gameState room) /\
        player2Wins (gameState r2) = player2Wins (gameState room) /\
        room_players r2 = room_players room /\ code r2 = code room /\
        createdAt r2 = createdAt room /\ lastActivity r2 = now)) /\
  ((forall c room,
      f_roomCode d = JStr c ->
      rooms s !! c = Some room ->
      List.length (room_players room) <> 2%nat) ->
   on_start_game sid (Data d) now s = Done s [] /\
   on_restart_game sid (Data d) now s = Done s []).
Proof.
  split.
  - intros c room Hd Hc Hl Hround.
    unfold on_start_game, on_restart_game, rooms_get. rewrite Hd, Hc.
    rewrite bool_decide_eq_false_2 by (intros Hn; exact (Hn Hl)).
    eexists (with_room _ _ _ _), (with_room _ _ _ _).
    split; [reflexivity|]. split; [reflexivity|].
    simpl. rewrite (js_succ_below _ Hround). split_and!; reflexivity.
  - intros Hnot. unfold on_start_game, on_restart_game, rooms_get.
    destruct (f_roomCode d) as [| | | |c|]; try (split; reflexivity).
    destruct (rooms s !! c) as [room|] eqn:Hc; [|split; reflexivity].
    rewrite bool_decide_eq_true_2 by exact (Hnot c room eq_refl Hc).
    split; reflexivity.
Qed.

Lemma lobby_room_stored :
  rooms (state_after lobby) !! "AAAA" = Some lobby_room.
Proof. vm_compute. reflexivity. Qed.

Lemma start_and_restart_witness :
  (exists r1 r2,
     on_start_game "a" (Data (payload "AAAA" "" "")) 6 (state_after lobby) =
       Done {| rooms := <["AAAA" := r1]> (rooms (state_after lobby));
               players := players (state_after lobby) |}
            [io_to_emit "AAAA" (game_start ["a"; "b"] (gameState r1))] /\
     on_restart_game "a" (Data (payload "AAAA" "" "")) 6 (state_after lobby) =
       Done {| rooms := <["AAAA" := r2]> (rooms (state_after lobby));
               players := players (state_after lobby) |}
            [io_to_emit "AAAA" (game_start ["a"; "b"] (gameState r2))] /\
     round (gameState r1) = 1 /\ round (gameState r2) = 2) /\
  on_restart_game "a" (Data (payload "ZZZZ" "" "")) 6 (state_after lobby)
    = Done (state_after lobby) [].
Proof.
  destruct (start_and_restart (state_after lobby) "a" (payload "AAAA" "" "") 6)
    as [Hgo _].
  destruct (start_and_restart (state_after lobby) "a" (payload "ZZZZ" "" "") 6)
    as [_ Hno].
  split.
  - destruct (Hgo "AAAA" lobby_room eq_refl lobby_room_stored eq_refl)
      as (r1 & r2 & H1 & H2 & (_ & _ & _ & _ & Hr1) & (_ & _ & _ & _ & Hr2) & _).
    + vm_compute. reflexivity.
    + exists r1, r2. split; [exact H1|]. split; [exact H2|]. split; assumption.
  - apply Hno. intros c room [= <-] Hc. exfalso.
    assert (Hnone : rooms (state_after lobby) !! "ZZZZ" = None) by (vm_compute; reflexivity).
    congruence.
Defined.

(** ** Actions *)

Lemma on_game_action_accepted sid d now u s c room :
  accepted sid d s c room ->
  on_game_action sid (Data d) now u s =
    Done {| rooms := <[c := (resolve_action c d now u room).1]> (rooms s);
            players := players s |}
         (resolve_action c d now u room).2.
Proof.
  intros (Hd & Hc & Ha & [p Hp] & first & rest & Hps & Hturn).
  unfold on_game_action, rooms_get. rewrite Hd, Hc, Ha, Hp, Hps. simpl.
  rewrite bool_decide_eq_false_2 by (intros Hn; exact (Hn Hturn)).
  destruct (resolve_action c d now u room). reflexivity.
Qed.

Lemma resolve_action_turn c d now u room :
  currentTurn (gameState (resolve_action c d now u room).1) = defender d.
Proof.
  unfold resolve_action, check_winner, switch_turn, apply_damage, defender.
  destruct (is_str (f_player d) "player1"); simpl; repeat case_match; simplify_eq/=; reflexivity.
Qed.

(** Line 236 takes the turn from the payload: after an accepted action it
    belongs to the seat opposite the [player] label, whatever seat acted. *)
Lemma turn_after_accepted_action s sid d now u c room :
  accepted sid d s c room ->
  exists s' out room',
    on_game_action sid (Data d) now u s = Done s' out /\
    rooms s' !! c = Some room' /\
    currentTurn (gameState room') = defender d.
Proof.
  intros Hacc. rewrite (on_game_action_accepted _ _ now u _ _ _ Hacc).
  eexists _, _, _. split; [reflexivity|]. simpl.
  split; [apply lookup_insert_eq|]. apply resolve_action_turn.
Qed.

Lemma first_round_room_stored :
  rooms (state_after first_round) !! "AAAA" = Some first_round_room.
Proof. vm_compute. reflexivity. Qed.

Lemma first_round_accepts_a label action :
  accepted "a" (payload "AAAA" label action) (state_after first_round) "AAAA" first_round_room.
Proof.
  unfold accepted. split_and!.
  - reflexivity.
  - exact first_round_room_stored.
  - reflexivity.
  - vm_compute. eexists. reflexivity.
  - exists "a", ["b"]. split; reflexivity.
Qed.

(** C2: what the code does where the claim fails.  The game has just been
    started and seat A holds the turn; the connection of seat A sends an
    action whose [player] field is 'player2'.  The turn check of lines
    202-205, which goes by the connection, accepts it; line 236, which goes
    by the field, gives the turn to seat A again, where the claim has it
    pass to seat B. *)
Theorem turn_stays_on_foreign_label :
  accepted "a" (payload "AAAA" "player2" "punch") (state_after first_round) "AAAA" first_round_room /\
  expectedTurn "a" "a" = player1 /\
  currentTurn (gameState first_round_room) = player1 /\
  exists s',
    on_game_action "a" (Data (payload "AAAA" "player2" "punch")) 7 0 (state_after first_round)
      = Done s' [ io_to_emit "AAAA" (game_action_msg (JStr "punch") (JStr "player2") 5);
                  io_to_emit "AAAA" (game_update 95 100 player1 None 0 0) ] /\
    turn_in s' "AAAA" = Some player1.
Proof.
  split; [apply first_round_accepts_a|]. split; [reflexivity|]. split; [reflexivity|].
  eexists. split; [vm_compute; reflexivity|]. vm_compute. reflexivity.
Qed.

(** C4: a [game_action] on a room whose game is active, sent by a registered
    connection whose seat (seat A for the first of the room's list, seat B
    for any other) does not hold the turn, is answered with the private error
    'Not your turn!' and nothing else: nothing goes to the room, and the
    state after is the state before, so both health values, the turn, the
    win counters, the round counter and the time of last activity are as
    they were. *)
Theorem out_of_turn_rejected (s : State) (sid : string) (d : Fields) (now u : Z)
    (c : string) (room : Room) (first : string) (rest : list string) :
  f_roomCode d = JStr c ->
  rooms s !! c = Some room ->
  gameActive (gameState room) = true ->
  is_Some (players s !! sid) ->
  room_players room = first :: rest ->
  currentTurn (gameState room) <> expectedTurn first sid ->
  exists s' out,
    on_game_action sid (Data d) now u s = Done s' out /\
    out = [socket_emit sid (error "Not your turn!")] /\
    s' = s /\
    rooms s' !! c = Some room.
Proof.
  intros Hd Hc Ha [p Hp] Hps Hturn.
  exists s, [socket_emit sid (error "Not your turn!")].
  split; [|auto].
  unfold on_game_action, rooms_get. rewrite Hd, Hc, Ha, Hp, Hps. simpl.
  rewrite bool_decide_eq_true_2 by exact Hturn. reflexivity.
Qed.

Lemma out_of_turn_rejected_witness :
  exists s' out,
    on_game_action "b" (Data (payload "AAAA" "player2" "punch")) 8 0 (state_after first_round)
      = Done s' out /\
    out = [socket_emit "b" (error "Not your turn!")] /\
    s' = state_after first_round /\
    rooms s' !! "AAAA" = Some first_round_room.
Proof.
  apply (out_of_turn_rejected (state_after first_round) "b"
           (payload "AAAA" "player2" "punch") 8 0 "AAAA" first_round_room "a" ["b"]).
  - reflexivity.
  - exact first_round_room_stored.
  - reflexivity.
  - vm_compute. eexists. reflexivity.
  - reflexivity.
  - vm_compute. discriminate.
Defined.

Lemma resolve_action_outcome c d now u room :
  0 < player1Health (gameState room) -> 0 < player2Health (gameState room) ->
  exists gs' winner,
    resolve_action c d now u room =
      (with_room (room_players room) gs' now room,
       [ io_to_emit c (game_action_msg (f_action d) (f_player d) (damage_of (f_action d) u));
         io_to_emit c (game_update (player1Health gs') (player2Health gs') (currentTurn gs')
                                   winner (player1Wins gs') (player2Wins gs')) ]) /\
    health (defender d) gs' =
      Z.max 0 (health (defender d) (gameState room) - damage_of (f_action d) u) /\
    health (other_seat (defender d)) gs' = health (other_seat (defender d)) (gameState room) /\
    (health (defender d) gs' = 0 ->
       winner = Some (other_seat (defender d)) /\
       wins (other_seat (defender d)) gs' =
         js_succ (wins (other_seat (defender d)) (gameState room)) /\
       wins (defender d) gs' = wins (defender d) (gameState room) /\
       gameActive gs' = false) /\
    (0 < health (defender d) gs' ->
       winner = None /\
       wins (other_seat (defender d)) gs' = wins (other_seat (defender d)) (gameState room) /\
       wins (defender d) gs' = wins (defender d) (gameState room) /\
       gameActive gs' = gameActive (gameState room)).
Proof.
  intros Hp1 Hp2.
  unfold resolve_action, check_winner, switch_turn, apply_damage, defender.
  destruct (is_str (f_player d) "player1"); cbn -[Z.max Z.leb Z.add Z.sub js_succ];
    repeat case_match; simplify_eq; try (exfalso; lia);
    eexists (Build_GameState _ _ _ _ _ _ _), _; (split; [reflexivity|]);
    cbn -[Z.max Z.leb Z.add Z.sub js_succ];
    split_and!; try reflexivity; intros; split_and!; try reflexivity; lia.
Qed.

(** When the [player] field names the seat that acts, the seat the action is
    aimed at is the opponent of the acting seat, and the outcome is the one
    the round is meant to have: the opponent's health is the larger of 0 and
    its health less the damage; at 0 the acting seat is the winner reported,
    its win counter goes up, and the game is no longer active; above 0 no
    winner is reported and counters and flag stay. *)
Lemma honest_action_decides s sid d now u c room :
  reachable s ->
  accepted sid d s c room ->
  (f_player d = JStr "player1" <-> currentTurn (gameState room) = player1) ->
  exists s' room' winner,
    on_game_action sid (Data d) now u s =
      Done s' [ io_to_emit c (game_action_msg (f_action d) (f_player d)
                                              (damage_of (f_action d) u));
                io_to_emit c (game_update (player1Health (gameState room'))
                                          (player2Health (gameState room'))
                                          (currentTurn (gameState room')) winner
                                          (player1Wins (gameState room'))
                                          (player2Wins (gameState room'))) ] /\
    rooms s' !! c = Some room' /\
    let attacker := currentTurn (gameState room) in
    let target := other_seat attacker in
    health target (gameState room') =
      Z.max 0 (health target (gameState room) - damage_of (f_action d) u) /\
    health attacker (gameState room') = health attacker (gameState room) /\
    (health target (gameState room') = 0 ->
       winner = Some attacker /\
       wins attacker (gameState room') = js_succ (wins attacker (gameState room)) /\
       wins target (gameState room') = wins target (gameState room) /\
       gameActive (gameState room') = false) /\
    (0 < health target (gameState room') ->
       winner = None /\
       wins attacker (gameState room') = wins attacker (gameState room) /\
       wins target (gameState room') = wins target (gameState room) /\
       gameActive (gameState room') = true).
Proof.
  intros Hs Hacc Hhonest.
  rewrite (on_game_action_accepted _ _ now u _ _ _ Hacc).
  destruct Hacc as (_ & Hc & Ha & _).
  destruct (rooms_ok_lookup _ _ _ (reachable_ok _ Hs) Hc) as (_ & _ & _ & _ & _ & _ & Hact).
  destruct (Hact Ha) as (Hp1 & Hp2 & _).
  destruct (resolve_action_outcome c d now u room Hp1 Hp2)
    as (gs' & winner & -> & Hh & Ho & Hzero & Hpos).
  assert (Hdef : defender d = other_seat (currentTurn (gameState room))).
  { unfold defender, is_str. case_bool_decide as Hl.
    - rewrite (proj1 Hhonest Hl). reflexivity.
    - destruct (currentTurn (gameState room)); [|reflexivity].
      exfalso. apply Hl. by apply Hhonest. }
  assert (Hatt : other_seat (defender d) = currentTurn (gameState room)).
  { rewrite Hdef. by destruct (currentTurn (gameState room)). }
  rewrite Hatt, Hdef in *. rewrite Ha in Hpos.
  eexists _, (with_room _ _ _ _), winner. split; [reflexivity|]. simpl.
  split; [apply lookup_insert_eq|]. simpl. auto.
Qed.

(** C5: what the code does where the claim fails.  Seat A holds the turn and
    is down to 22; its connection sends a special whose [player] field is
    'player2'.  The action is accepted for seat A, but lines 229-233 go by
    the field and take the 39 off seat A's own health, which is clamped to
    0; seat B, whom seat A acts against, keeps 100, and yet a winner is
    reported: seat B, who did not act, with its win counter up by one and
    the game no longer active. *)
Theorem self_knockout :
  accepted "a" (payload "AAAA" "player2" "special") (state_after self_hits) "AAAA"
           self_hits_room /\
  expectedTurn "a" "a" = player1 /\
  exists s' room',
    on_game_action "a" (Data (payload "AAAA" "player2" "special")) 9 (two53 - 1)
                   (state_after self_hits) =
      Done s' [ io_to_emit "AAAA" (game_action_msg (JStr "special") (JStr "player2") 39);
                io_to_emit "AAAA" (game_update 0 100 player1 (Some player2) 0 1) ] /\
    rooms s' !! "AAAA" = Some room' /\
    player1Health (gameState room') = 0 /\
    player2Health (gameState room') = player2Health (gameState self_hits_room) /\
    player2Health (gameState room') = 100 /\
    gameActive (gameState room') = false /\
    player1Wins (gameState room') = 0 /\
    player2Wins (gameState room') = 1.
Proof.
  split.
  { unfold accepted. split_and!.
    - reflexivity.
    - vm_compute. reflexivity.
    - reflexivity.
    - vm_compute. eexists. reflexivity.
    - exists "a", ["b"]. split; reflexivity. }
  split; [reflexivity|].
  eexists _, _. split; [vm_compute; reflexivity|].
  split; [vm_compute; reflexivity|]. split_and!; reflexivity.
Qed.

(** ** No handler throws on a structured payload *)

Lemma rooms_nonempty s c r : reachable s -> rooms s !! c = Some r -> room_players r <> [].
Proof.
  intros Hs Hc.
  destruct (rooms_ok_lookup _ _ _ (reachable_ok _ Hs) Hc) as (_ & _ & Hne & _).
  exact Hne.
Qed.

Lemma on_game_action_completes sid d now u s :
  reachable s -> exists s' out, on_game_action sid (Data d) now u s = Done s' out.
Proof.
  intros Hs. unfold on_game_action.
  destruct (rooms_get s (f_roomCode d)) as [[c room]|] eqn:Hget; [|eauto].
  apply rooms_get_Some in Hget as [_ Hc].
  destruct (negb (gameActive (gameState room))); [eauto|].
  destruct (players s !! sid); [|eauto].
  pose proof (rooms_nonempty _ _ _ Hs Hc) as Hne.
  destruct (room_players room) as [|first rest]; [contradiction|].
  case_bool_decide; [eauto|].
  destruct (resolve_action c d now u room). eauto.
Qed.

(** C6, as the code has it: on every reachable state an event runs its
    handler to completion when its payload, if it takes one, is neither
    [undefined] nor [null], its name, for [set_name], can be converted to a
    string, and, for [create_room], the code generator returns; and every
    room in the store lists at least one player, so line 202 always finds
    the first entry. *)
Theorem handlers_complete (s : State) (e : Event) :
  reachable s ->
  structured e ->
  generator_returns e s ->
  (forall c r, rooms s !! c = Some r -> room_players r <> []) /\
  exists s' out, handle e s = Done s' out.
Proof.
  intros Hs He Hg. split; [intros c r; apply rooms_nonempty; exact Hs|].
  destruct e as [sid now|sid data|sid draws t1 t2|sid data now|sid data now
                |sid data now|sid data now u|sid data now|sid now|now];
    simpl in *.
  - unfold on_connection. eauto.
  - destruct He as (d & -> & Hname). unfold on_set_name.
    destruct (players s !! sid); [|eauto].
    destruct (f_name d); [eauto | contradiction].
  - unfold on_create_room. destruct (players s !! sid); [|eauto].
    destruct Hg as [c ->]. eauto.
  - destruct data as [|d]; [contradiction|].
    unfold on_join_room. repeat case_match; eauto.
  - destruct data as [|d]; [contradiction|].
    unfold on_leave_room. repeat case_match; eauto.
  - destruct data as [|d]; [contradiction|].
    unfold on_start_game. repeat case_match; eauto.
  - destruct data as [|d]; [contradiction|].
    by apply on_game_action_completes.
  - destruct data as [|d]; [contradiction|].
    unfold on_restart_game. repeat case_match; eauto.
  - unfold on_disconnect. repeat case_match; eauto.
  - unfold on_sweep. eauto.
Qed.

Lemma handlers_complete_witness :
  structured (set_name "a" (Data (named (JStr "Ada")))) /\
  exists s' out,
    handle (set_name "a" (Data (named (JStr "Ada")))) (state_after first_round) = Done s' out.
Proof.
  assert (Hst : structured (set_name "a" (Data (named (JStr "Ada"))))).
  { simpl. eexists. split; [reflexivity | discriminate]. }
  split; [exact Hst|].
  exact (proj2 (handlers_complete (state_after first_round) _
                  (state_after_reachable first_round) Hst I)).
Defined.

Lemma zeros_never_return rs r :
  rs !! "AAAA" = Some r -> forall n, generateRoomCode rs (repeat 0 n) = None.
Proof.
  intros Hr n. assert (H : forall m k, (k <= m)%nat -> generateRoomCode rs (repeat 0 k) = None).
  { induction m as [|m IH]; intros k Hk.
    - replace k with 0%nat by lia. reflexivity.
    - destruct k as [|[|[|[|k]]]]; try reflexivity.
      cbn [repeat]. rewrite generateRoomCode_unfold.
      change (draw_code [0; 0; 0; 0]) with "AAAA".
      destruct (decide (is_Some (rs !! "AAAA"))) as [_|Hn].
      + apply IH. lia.
      + exfalso. apply Hn. by eexists. }
  exact (H n n (Nat.le_refl n)).
Qed.

(** C6 fails as stated, on a reachable state, in three ways.  A [start_game]
    sent without a payload reads [data.roomCode] of undefined, and so do
    [set_name], [join_room] and [leave_room] of a connection that is
    registered (and in a room).  A [set_name] whose name is an object that
    cannot be converted to a string throws at line 67.  And a [create_room]
    whose draws give the code of the one room there is, however many of them,
    is still in the recursion of line 17, which the call stack ends with a
    RangeError. *)
Lemma handlers_throw_counterexample :
  reachable (state_after lobby) /\
  (handle (start_game "a" NoData 7) (state_after lobby) = TypeError /\
   handle (set_name "a" NoData) (state_after lobby) = TypeError /\
   handle (join_room "a" NoData 7) (state_after lobby) = TypeError /\
   handle (leave_room "a" NoData 7) (state_after lobby) = TypeError) /\
  handle (set_name "a" (Data {| f_name := Unprintable; f_roomCode := JUndefined;
                                f_player := JUndefined; f_action := JUndefined |}))
         (state_after lobby) = TypeError /\
  forall n, handle (create_room "b" (repeat 0 n) 7 7) (state_after lobby) = Unfinished.
Proof.
  split; [apply state_after_reachable|].
  split; [split_and!; vm_compute; reflexivity|].
  split; [vm_compute; reflexivity|].
  intros n. simpl. unfold on_create_room.
  assert (Hb : is_Some (players (state_after lobby) !! "b")) by (vm_compute; by eexists).
  destruct Hb as [p ->].
  rewrite (zeros_never_return _ lobby_room lobby_room_stored n). reflexivity.
Qed.

(** ** Leaving and disconnecting *)

Lemma room_of_Some s sid p c :
  players s !! sid = Some p -> player_room p = Some c -> c <> "" ->
  room_of s sid = Some c.
Proof.
  intros Hp Hr Hc. unfold room_of. rewrite Hp, Hr.
  destruct (String.eqb_spec c ""); [contradiction|reflexivity].
Qed.

Lemma without_pair sid a b :
  a <> b -> sid = a \/ sid = b ->
  without sid [a; b] = if decide (sid = a) then [b] else [a].
Proof.
  intros Hab Hsid. unfold without.
  destruct (decide (sid = a)) as [->|Hna].
  - rewrite filter_cons_False by (intros Hn; exact (Hn eq_refl)).
    rewrite filter_cons_True by congruence. reflexivity.
  - destruct Hsid as [->| ->]; [contradiction|].
    rewrite filter_cons_True by congruence.
    rewrite filter_cons_False by (intros Hn; exact (Hn eq_refl)). reflexivity.
Qed.

(** C10: when one of the two players of a room leaves it, the room keeps its
    round counter, both win counters, its code, its creation time (and its
    turn indicator); what changes is the player list, which loses the caller,
    both health values, set to 100, the active flag, cleared, and the time of
    last activity.  No other room changes. *)
Theorem leave_room_frame (s : State) (sid : string) (p : Player) (d : Fields) (now : Z)
    (c : string) (room : Room) (a b : string) :
  reachable s ->
  players s !! sid = Some p ->
  player_room p = Some c ->
  rooms s !! c = Some room ->
  room_players room = [a; b] ->
  a <> b ->
  sid = a \/ sid = b ->
  exists room',
    on_leave_room sid (Data d) now s =
      Done {| rooms := <[c := room']> (rooms s);
              players := <[sid := clear_room_of p]> (players s) |}
           [io_to_emit c (player_left (room_players room'));
            socket_leave sid (f_roomCode d)] /\
    (round (gameState room') = round (gameState room) /\
     player1Wins (gameState room') = player1Wins (gameState room) /\
     player2Wins (gameState room') = player2Wins (gameState room) /\
     code room' = code room /\
     createdAt room' = createdAt room /\
     currentTurn (gameState room') = currentTurn (gameState room)) /\
    (room_players room' = (if decide (sid = a) then [b] else [a]) /\
     player1Health (gameState room') = 100 /\
     player2Health (gameState room') = 100 /\
     gameActive (gameState room') = false /\
     lastActivity room' = now).
Proof.
  intros Hs Hp Hr Hc Hps Hab Hsid.
  destruct (rooms_ok_lookup _ _ _ (reachable_ok _ Hs) Hc) as (Hk & _).
  assert (Hne : c <> "") by (intros ->; discriminate).
  unfold on_leave_room.
  rewrite (room_of_Some _ _ _ _ Hp Hr Hne), Hp, Hc, Hps, (without_pair _ _ _ Hab Hsid).
  destruct (decide (sid = a)); simpl; eexists (with_room _ _ _ _);
    (split; [reflexivity|]); split_and!; reflexivity.
Qed.

Lemma mid_game_room_stored :
  rooms (state_after mid_game) !! "AAAA" = Some mid_game_room.
Proof. vm_compute. reflexivity. Qed.

Lemma mid_game_player_a : players (state_after mid_game) !! "a" = Some player_a.
Proof. vm_compute. reflexivity. Qed.

Lemma leave_room_frame_witness :
  exists room',
    on_leave_room "a" (Data (payload "AAAA" "" "")) 9 (state_after mid_game) =
      Done {| rooms := <["AAAA" := room']> (rooms (state_after mid_game));
              players := <["a" := clear_room_of player_a]> (players (state_after mid_game)) |}
           [io_to_emit "AAAA" (player_left ["b"]); socket_leave "a" (JStr "AAAA")] /\
    round (gameState room') = 1 /\
    player2Health (gameState room') = 100.
Proof.
  destruct (leave_room_frame (state_after mid_game) "a" player_a (payload "AAAA" "" "") 9
              "AAAA" mid_game_room "a" "b"
              (state_after_reachable mid_game) mid_game_player_a eq_refl
              mid_game_room_stored eq_refl)
    as (room' & Hrun & (Hround & _) & (Hps & _ & Hh & _)).
  - discriminate.
  - left. reflexivity.
  - exists room'. rewrite Hps in Hrun. split; [exact Hrun|]. split; assumption.
Defined.

Lemma disconnect_without_room sid now s :
  room_of s sid = None ->
  on_disconnect sid now s =
    Done {| rooms := rooms s; players := delete sid (players s) |} [].
Proof. intros Hr. unfold on_disconnect. rewrite Hr. reflexivity. Qed.

(** What a disconnect does to the room of the caller is what [leave_room]
    does, short of the two health values, which it leaves as they are. *)
Lemma disconnect_vs_leave_room sid p d now s c :
  players s !! sid = Some p -> room_of s sid = Some c ->
  exists rs1 rs2 out,
    on_leave_room sid (Data d) now s =
      Done {| rooms := rs1; players := <[sid := clear_room_of p]> (players s) |}
           (out ++ [socket_leave sid (f_roomCode d)])%list /\
    on_disconnect sid now s =
      Done {| rooms := rs2; players := delete sid (players s) |} out /\
    (forall c', c' <> c -> rs1 !! c' = rooms s !! c' /\ rs2 !! c' = rooms s !! c') /\
    match rs1 !! c, rs2 !! c with
    | Some r1, Some r2 =>
        r1 = with_room (room_players r2)
               {| player1Health := 100; player2Health := 100;
                  gameActive := gameActive (gameState r2);
                  currentTurn := currentTurn (gameState r2);
                  round := round (gameState r2);
                  player1Wins := player1Wins (gameState r2);
                  player2Wins := player2Wins (gameState r2) |}
               (lastActivity r2) r2 /\
        gameActive (gameState r2) = false
    | None, None => True
    | _, _ => False
    end.
Proof.
  intros Hp Hr. unfold on_leave_room, on_disconnect. rewrite Hr, Hp.
  destruct (rooms s !! c) as [room|] eqn:Hc.
  - destruct (List.length (without sid (room_players room)) =? 0)%nat.
    + eexists _, _, _. split; [reflexivity|]. split; [reflexivity|]. split.
      * intros c' Hne. rewrite !lookup_delete_ne by congruence. auto.
      * rewrite lookup_delete_eq. exact I.
    + eexists _, _, _. split; [reflexivity|]. split; [reflexivity|]. split.
      * intros c' Hne. rewrite !lookup_insert_ne by congruence. auto.
      * rewrite !lookup_insert_eq. split; reflexivity.
  - eexists _, _, []. split; [reflexivity|]. split; [reflexivity|]. split.
    + auto.
    + rewrite Hc. exact I.
Qed.

(** C3: what the code does where the claim fails.  Seat A disconnects in the
    middle of a round in which seat B is down to 81: the room keeps seat B's
    81, where [leave_room] by seat A puts both health values back to 100.
    Removal, broadcast and the cleared active flag are the same. *)
Theorem disconnect_keeps_health :
  (exists s' r,
     on_disconnect "a" 9 (state_after mid_game) =
       Done s' [io_to_emit "AAAA" (player_left ["b"])] /\
     rooms s' !! "AAAA" = Some r /\ players s' !! "a" = None /\
     room_players r = ["b"] /\ gameActive (gameState r) = false /\
     player1Health (gameState r) = 100 /\ player2Health (gameState r) = 81) /\
  (exists s' r,
     on_leave_room "a" (Data (payload "AAAA" "" "")) 9 (state_after mid_game) =
       Done s' [io_to_emit "AAAA" (player_left ["b"]); socket_leave "a" (JStr "AAAA")] /\
     rooms s' !! "AAAA" = Some r /\
     room_players r = ["b"] /\ gameActive (gameState r) = false /\
     player1Health (gameState r) = 100 /\ player2Health (gameState r) = 100).
Proof.
  split.
  - eexists _, _. split; [vm_compute; reflexivity|].
    split; [vm_compute; reflexivity|]. split_and!; reflexivity.
  - eexists _, _. split; [vm_compute; reflexivity|].
    split; [vm_compute; reflexivity|]. split_and!; reflexivity.
Qed.

(** * Further properties of the handlers *)

(** ** How one event changes the room store *)

Lemma room_evolves_refl r : room_evolves r r.
Proof. unfold room_evolves. split_and!; try reflexivity; lia. Qed.

Lemma resolve_action_evolves c d now u room :
  room_evolves room (resolve_action c d now u room).1.
Proof.
  pose proof (js_succ_bounds (player1Wins (gameState room))).
  pose proof (js_succ_bounds (player2Wins (gameState room))).
  unfold resolve_action, check_winner, switch_turn, apply_damage, room_evolves.
  destruct (is_str (f_player d) "player1"); cbn -[Z.max Z.leb Z.add Z.sub js_succ];
    repeat case_match; simplify_eq; cbn -[Z.max Z.leb Z.add Z.sub js_succ];
    split_and!; try reflexivity; lia.
Qed.

(** A room found after an event was there before, with its lasting fields
    evolved, or is the room a [create_room] has just made under a code that
    was free. *)
Lemma handle_rooms e s s' out c r' :
  handle e s = Done s' out ->
  rooms s' !! c = Some r' ->
  (exists r, rooms s !! c = Some r /\ room_evolves r r') \/
  (rooms s !! c = None /\
   exists sid draws t1 t2,
     e = create_room sid draws t1 t2 /\
     is_Some (players s !! sid) /\
     generateRoomCode (rooms s) draws = Some c /\
     r' = created_room sid c t1 t2).
Proof.
  assert (Hsame : forall r, rooms s !! c = Some r ->
            (exists r0, rooms s !! c = Some r0 /\ room_evolves r0 r) \/
            (rooms s !! c = None /\
             exists sid draws t1 t2,
               e = create_room sid draws t1 t2 /\
               is_Some (players s !! sid) /\
               generateRoomCode (rooms s) draws = Some c /\
               r = created_room sid c t1 t2)).
  { intros r Hr. left. exists r. split; [exact Hr | apply room_evolves_refl]. }
  assert (Hupd : forall c0 r0 r1, rooms s !! c0 = Some r0 -> room_evolves r0 r1 ->
            <[c0 := r1]> (rooms s) !! c = Some r' ->
            (exists r, rooms s !! c = Some r /\ room_evolves r r') \/
            (rooms s !! c = None /\
             exists sid draws t1 t2,
               e = create_room sid draws t1 t2 /\
               is_Some (players s !! sid) /\
               generateRoomCode (rooms s) draws = Some c /\
               r' = created_room sid c t1 t2)).
  { intros c0 r0 r1 H0 Hev Hl. destruct (decide (c0 = c)) as [->|Hne].
    - rewrite lookup_insert_eq in Hl. injection Hl as <-. left. eauto.
    - rewrite lookup_insert_ne in Hl by exact Hne. auto. }
  assert (Hdel : forall c0, delete c0 (rooms s) !! c = Some r' ->
            (exists r, rooms s !! c = Some r /\ room_evolves r r') \/
            (rooms s !! c = None /\
             exists sid draws t1 t2,
               e = create_room sid draws t1 t2 /\
               is_Some (players s !! sid) /\
               generateRoomCode (rooms s) draws = Some c /\
               r' = created_room sid c t1 t2)).
  { intros c0 Hl. apply lookup_delete_Some in Hl as [_ Hl]. auto. }
  destruct e as [sid now|sid data|sid draws t1 t2|sid data now|sid data now
                |sid data now|sid data now u|sid data now|sid now|now]; simpl.
  - intros [= <- <-]. simpl. auto.
  - unfold on_set_name. repeat case_match; try discriminate; intros [= <- <-]; simpl; auto.
  - unfold on_create_room.
    destruct (players s !! sid) as [p|] eqn:Hp; [|intros [= <- <-]; auto].
    pose proof (generateRoomCode_result (rooms s) _ draws (Nat.le_refl _)) as Hg.
    destruct (generateRoomCode (rooms s) draws) as [c0|] eqn:Hgen; [|discriminate].
    destruct Hg as (_ & _ & Hfresh).
    intros [= <- <-]. simpl. intros Hl.
    destruct (decide (c0 = c)) as [->|Hne].
    + rewrite lookup_insert_eq in Hl. injection Hl as <-.
      right. split; [exact Hfresh|]. exists sid, draws, t1, t2.
      split_and!; [reflexivity | by eexists | exact Hgen | reflexivity].
    + rewrite lookup_insert_ne in Hl by exact Hne. auto.
  - unfold on_join_room.
    destruct (players s !! sid); [|intros [= <- <-]; auto].
    destruct data as [|d]; [discriminate|].
    destruct (rooms_get s (f_roomCode d)) as [[c0 room]|] eqn:Hget;
      [|intros [= <- <-]; auto].
    apply rooms_get_Some in Hget as [_ Hc0].
    case_match; intros [= <- <-]; simpl; [auto|].
    apply (Hupd c0 room); [exact Hc0|]. unfold room_evolves; simpl. split_and!; try reflexivity; lia.
  - unfold on_leave_room.
    destruct (room_of s sid) as [c0|]; [|intros [= <- <-]; auto].
    destruct (players s !! sid); [|intros [= <- <-]; auto].
    destruct (rooms s !! c0) as [room|] eqn:Hc0.
    + destruct (List.length (without sid (room_players room)) =? 0)%nat;
        (destruct data; [discriminate|]); intros [= <- <-]; simpl.
      * apply Hdel.
      * apply (Hupd c0 room); [exact Hc0|]. unfold room_evolves; simpl. split_and!; try reflexivity; lia.
    + destruct data; [discriminate|]. intros [= <- <-]; simpl. auto.
  - unfold on_start_game.
    destruct data as [|d]; [discriminate|].
    destruct (rooms_get s (f_roomCode d)) as [[c0 room]|] eqn:Hget;
      [|intros [= <- <-]; auto].
    apply rooms_get_Some in Hget as [_ Hc0].
    case_match; intros [= <- <-]; simpl; [auto|].
    apply (Hupd c0 room); [exact Hc0|]. unfold room_evolves; simpl. split_and!; try reflexivity; lia.
  - unfold on_game_action.
    destruct data as [|d]; [discriminate|].
    destruct (rooms_get s (f_roomCode d)) as [[c0 room]|] eqn:Hget;
      [|intros [= <- <-]; auto].
    apply rooms_get_Some in Hget as [_ Hc0].
    destruct (negb (gameActive (gameState room))); [intros [= <- <-]; auto|].
    destruct (players s !! sid); [|intros [= <- <-]; auto].
    destruct (room_players room) as [|first rest]; [discriminate|].
    case_bool_decide; [intros [= <- <-]; auto|].
    pose proof (resolve_action_evolves c0 d now u room) as Hev.
    destruct (resolve_action c0 d now u room) as [room' out'].
    intros [= <- <-]; simpl. apply (Hupd c0 room); assumption.
  - unfold on_restart_game.
    destruct data as [|d]; [discriminate|].
    destruct (rooms_get s (f_roomCode d)) as [[c0 room]|] eqn:Hget;
      [|intros [= <- <-]; auto].
    apply rooms_get_Some in Hget as [_ Hc0].
    case_match; intros [= <- <-]; simpl; [auto|].
    apply (Hupd c0 room); [exact Hc0|].
    pose proof (js_succ_bounds (round (gameState room))).
    unfold room_evolves; cbn -[js_succ]. split_and!; try reflexivity; lia.
  - unfold on_disconnect.
    destruct (room_of s sid) as [c0|]; [|intros [= <- <-]; simpl; auto].
    destruct (rooms s !! c0) as [room|] eqn:Hc0; [|intros [= <- <-]; simpl; auto].
    destruct (List.length (without sid (room_players room)) =? 0)%nat;
      intros [= <- <-]; simpl.
    + apply Hdel.
    + apply (Hupd c0 room); [exact Hc0|]. unfold room_evolves; simpl. split_and!; try reflexivity; lia.
  - intros [= <- <-]; simpl. intros Hl.
    apply map_lookup_filter_Some in Hl as [Hl _]. auto.
Qed.

(** ** Who is listed where *)

Lemma without_keeps sid q ps : q ∈ ps -> q <> sid -> q ∈ without sid ps.
Proof. intros Hin Hne. unfold without. apply list_elem_of_filter. auto. Qed.

Lemma elem_length_pos {A} (x : A) (l : list A) :
  x ∈ l -> (List.length l =? 0)%nat = false.
Proof. destruct l; [intros H; by apply elem_of_nil in H | reflexivity]. Qed.

Lemma listed_insert_same s q c r ps gs now rs' pl :
  rooms s !! c = Some r ->
  rs' = <[c := with_room ps gs now r]> (rooms s) ->
  (q ∈ room_players r -> q ∈ ps) ->
  forall c', listed s q c' -> listed {| rooms := rs'; players := pl |} q c'.
Proof.
  intros Hc -> Hkeep c' (r0 & Hr0 & Hin). unfold listed; simpl.
  destruct (decide (c = c')) as [<-|Hne].
  - rewrite lookup_insert_eq. eexists. split; [reflexivity|]. simpl.
    apply Hkeep. congruence.
  - rewrite lookup_insert_ne by exact Hne. eauto.
Qed.

Lemma listed_same_rooms s q c pl :
  listed s q c -> listed {| rooms := rooms s; players := pl |} q c.
Proof. intros H. exact H. Qed.

(** Taking [sid] out of room [c0], as lines 147-167 and 298-316 do, keeps
    every other connection listed where it was. *)
Lemma listed_after_removal s sid q c0 room rs' gs now pl :
  rooms s !! c0 = Some room ->
  q <> sid ->
  rs' = (if (List.length (without sid (room_players room)) =? 0)%nat
         then delete c0 (rooms s)
         else <[c0 := with_room (without sid (room_players room)) gs now room]> (rooms s)) ->
  forall c, listed s q c -> listed {| rooms := rs'; players := pl |} q c.
Proof.
  intros Hc0 Hne -> c (r & Hr & Hin).
  destruct (decide (c0 = c)) as [<-|Hcne].
  - assert (r = room) as -> by congruence.
    pose proof (without_keeps sid q _ Hin Hne) as Hin'.
    rewrite (elem_length_pos _ _ Hin').
    unfold listed; simpl. rewrite lookup_insert_eq. eauto.
  - unfold listed; simpl.
    destruct (List.length (without sid (room_players room)) =? 0)%nat.
    + rewrite lookup_delete_ne by exact Hcne. eauto.
    + rewrite lookup_insert_ne by exact Hcne. eauto.
Qed.

Lemma handle_listed e s s' out q c :
  handle e s = Done s' out -> listed s q c -> ~ unlists e q -> listed s' q c.
Proof.
  intros He Hl Hun.
  destruct e as [sid now|sid data|sid draws t1 t2|sid data now|sid data now
                |sid data now|sid data now u|sid data now|sid now|now]; simpl in *.
  - injection He as <- <-. exact Hl.
  - unfold on_set_name in He. repeat case_match; try discriminate;
      injection He as <- <-; exact Hl.
  - unfold on_create_room in He.
    destruct (players s !! sid); [|injection He as <- <-; exact Hl].
    pose proof (generateRoomCode_result (rooms s) _ draws (Nat.le_refl _)) as Hg.
    destruct (generateRoomCode (rooms s) draws) as [c0|]; [|discriminate].
    destruct Hg as (_ & _ & Hfresh). injection He as <- <-.
    destruct Hl as (r & Hr & Hin). unfold listed; simpl.
    rewrite lookup_insert_ne by congruence. eauto.
  - unfold on_join_room in He.
    destruct (players s !! sid); [|injection He as <- <-; exact Hl].
    destruct data as [|d]; [discriminate|].
    destruct (rooms_get s (f_roomCode d)) as [[c0 room]|] eqn:Hget;
      [|injection He as <- <-; exact Hl].
    apply rooms_get_Some in Hget as [_ Hc0].
    case_match; injection He as <- <-; [exact Hl|].
    eapply listed_insert_same; [exact Hc0 | reflexivity | | exact Hl].
    intros Hin. apply elem_of_app. by left.
  - unfold on_leave_room in He.
    destruct (room_of s sid) as [c0|]; [|injection He as <- <-; exact Hl].
    destruct (players s !! sid) as [p|]; [|injection He as <- <-; exact Hl].
    destruct data as [|d].
    { destruct (rooms s !! c0); [case_match|]; discriminate. }
    destruct (rooms s !! c0) as [room|] eqn:Hc0.
    + assert (Hne : q <> sid) by congruence.
      refine (_ (listed_after_removal s sid q c0 room _ _ now
                   (<[sid := clear_room_of p]> (players s)) Hc0 Hne eq_refl c Hl)).
      destruct (List.length (without sid (room_players room)) =? 0)%nat;
        injection He as <- <-; intros H; exact H.
    + injection He as <- <-. exact Hl.
  - unfold on_start_game in He.
    destruct data as [|d]; [discriminate|].
    destruct (rooms_get s (f_roomCode d)) as [[c0 room]|] eqn:Hget;
      [|injection He as <- <-; exact Hl].
    apply rooms_get_Some in Hget as [_ Hc0].
    case_match; injection He as <- <-; [exact Hl|].
    eapply listed_insert_same; [exact Hc0 | reflexivity | | exact Hl]. auto.
  - unfold on_game_action in He.
    destruct data as [|d]; [discriminate|].
    destruct (rooms_get s (f_roomCode d)) as [[c0 room]|] eqn:Hget;
      [|injection He as <- <-; exact Hl].
    apply rooms_get_Some in Hget as [_ Hc0].
    destruct (negb (gameActive (gameState room))); [injection He as <- <-; exact Hl|].
    destruct (players s !! sid); [|injection He as <- <-; exact Hl].
    destruct (room_players room) as [|first rest] eqn:Hps; [discriminate|].
    case_bool_decide; [injection He as <- <-; exact Hl|].
    unfold resolve_action in He. destruct (check_winner _) as [w gs'].
    injection He as <- <-.
    eapply listed_insert_same; [exact Hc0 | reflexivity | | exact Hl].
    rewrite Hps. auto.
  - unfold on_restart_game in He.
    destruct data as [|d]; [discriminate|].
    destruct (rooms_get s (f_roomCode d)) as [[c0 room]|] eqn:Hget;
      [|injection He as <- <-; exact Hl].
    apply rooms_get_Some in Hget as [_ Hc0].
    case_match; injection He as <- <-; [exact Hl|].
    eapply listed_insert_same; [exact Hc0 | reflexivity | | exact Hl]. auto.
  - unfold on_disconnect in He.
    destruct (room_of s sid) as [c0|]; [|injection He as <- <-; exact Hl].
    destruct (rooms s !! c0) as [room|] eqn:Hc0; [|injection He as <- <-; exact Hl].
    assert (Hne : q <> sid) by congruence.
    refine (_ (listed_after_removal s sid q c0 room _ _ now
                 (delete sid (players s)) Hc0 Hne eq_refl c Hl)).
    destruct (List.length (without sid (room_players room)) =? 0)%nat;
      injection He as <- <-; intros H; exact H.
  - injection He as <- <-. destruct Hl as (r & Hr & Hin).
    exists r. split; [|exact Hin]. simpl.
    apply map_lookup_filter_Some. split; [exact Hr|].
    unfold stale; simpl. intros [Hz _].
    apply nil_length_inv in Hz. rewrite Hz in Hin. by apply elem_of_nil in Hin.
Qed.

(** ** The registry *)

Lemma truthy_js_or_anonymous v : truthy (js_or v (JStr "Anonymous")) = true.
Proof. unfold js_or. destruct (truthy v) eqn:E; [exact E | reflexivity]. Qed.

Lemma handle_players_ok e s s' out :
  players_ok s -> handle e s = Done s' out -> players_ok s'.
Proof.
  intros Hs He q p' Hq.
  assert (Hkeep : forall p, players s !! q = Some p -> ~ unlists e q -> player_ok s' q p).
  { intros p Hp Hun. destruct (Hs q p Hp) as (Hid & Hname & Hroom).
    split_and!; [exact Hid | exact Hname |].
    intros c Hc. eapply handle_listed; [exact He | by apply Hroom | exact Hun]. }
  assert (Hstay : s' = s -> player_ok s' q p').
  { intros ->. exact (Hs q p' Hq). }
  destruct e as [sid now|sid data|sid draws t1 t2|sid data now|sid data now
                |sid data now|sid data now u|sid data now|sid now|now]; simpl in *.
  - injection He as <- <-. simpl in *.
    destruct (decide (sid = q)) as [->|Hne].
    + rewrite lookup_insert_eq in Hq. injection Hq as <-.
      split_and!; simpl; [reflexivity | reflexivity | discriminate].
    + rewrite lookup_insert_ne in Hq by exact Hne. apply Hkeep; auto.
  - unfold on_set_name in He.
    destruct (players s !! sid) as [p|] eqn:Hp; [|injection He as <- <-; by apply Hstay].
    destruct data as [|d]; [discriminate|].
    destruct (f_name d) as [v|]; [|discriminate]. injection He as <- <-. simpl in *.
    destruct (decide (sid = q)) as [->|Hne].
    + rewrite lookup_insert_eq in Hq. injection Hq as <-.
      destruct (Hs q p Hp) as (Hid & _ & Hroom).
      split_and!; simpl; [exact Hid | apply truthy_js_or_anonymous | exact Hroom].
    + rewrite lookup_insert_ne in Hq by exact Hne. apply Hkeep; auto.
  - unfold on_create_room in He.
    destruct (players s !! sid) as [p|] eqn:Hp; [|injection He as <- <-; by apply Hstay].
    destruct (generateRoomCode (rooms s) draws) as [c0|]; [|discriminate].
    injection He as <- <-. simpl in *.
    destruct (decide (sid = q)) as [->|Hne].
    + rewrite lookup_insert_eq in Hq. injection Hq as <-.
      destruct (Hs q p Hp) as (Hid & Hname & _).
      split_and!; simpl; [exact Hid | exact Hname |].
      intros c [= <-]. unfold listed; simpl. rewrite lookup_insert_eq.
      eexists. split; [reflexivity|]. simpl. apply list_elem_of_singleton. reflexivity.
    + rewrite lookup_insert_ne in Hq by exact Hne. apply Hkeep; auto.
  - unfold on_join_room in He.
    destruct (players s !! sid) as [p|] eqn:Hp; [|injection He as <- <-; by apply Hstay].
    destruct data as [|d]; [discriminate|].
    destruct (rooms_get s (f_roomCode d)) as [[c0 room]|] eqn:Hget;
      [|injection He as <- <-; by apply Hstay].
    case_match; [injection He as <- <-; by apply Hstay|].
    injection He as <- <-. simpl in *.
    destruct (decide (sid = q)) as [->|Hne].
    + rewrite lookup_insert_eq in Hq. injection Hq as <-.
      destruct (Hs q p Hp) as (Hid & Hname & _).
      split_and!; simpl; [exact Hid | exact Hname |].
      intros c [= <-]. unfold listed; simpl. rewrite lookup_insert_eq.
      eexists. split; [reflexivity|]. simpl. apply elem_of_app. right.
      apply list_elem_of_singleton. reflexivity.
    + rewrite lookup_insert_ne in Hq by exact Hne. apply Hkeep; auto.
  - unfold on_leave_room in He.
    destruct (room_of s sid) as [c0|]; [|injection He as <- <-; by apply Hstay].
    destruct (players s !! sid) as [p|] eqn:Hp; [|injection He as <- <-; by apply Hstay].
    destruct data as [|d].
    { destruct (rooms s !! c0); [case_match|]; discriminate. }
    assert (Hq' : (<[sid := clear_room_of p]> (players s)) !! q = Some p').
    { destruct (rooms s !! c0); [case_match|]; injection He as <- <-; exact Hq. }
    destruct (decide (sid = q)) as [->|Hne].
    + rewrite lookup_insert_eq in Hq'. injection Hq' as <-.
      destruct (Hs q p Hp) as (Hid & Hname & _).
      split_and!; simpl; [exact Hid | exact Hname | discriminate].
    + rewrite lookup_insert_ne in Hq' by exact Hne. apply Hkeep; auto.
  - unfold on_start_game in He. apply Hkeep; [|auto].
    repeat case_match; try discriminate; injection He as <- <-; exact Hq.
  - unfold on_game_action in He. apply Hkeep; [|auto].
    repeat case_match; try discriminate; injection He as <- <-; exact Hq.
  - unfold on_restart_game in He. apply Hkeep; [|auto].
    repeat case_match; try discriminate; injection He as <- <-; exact Hq.
  - unfold on_disconnect in He.
    assert (Hq' : delete sid (players s) !! q = Some p').
    { repeat case_match; injection He as <- <-; exact Hq. }
    apply lookup_delete_Some in Hq' as [Hne Hq']. apply Hkeep; auto.
  - injection He as <- <-. simpl in *. apply Hkeep; auto.
Qed.

Lemma reachable_players_ok s : reachable s -> players_ok s.
Proof.
  induction 1 as [|s e s' out _ IH Hstep].
  - unfold players_ok, initial; simpl. apply map_Forall_empty.
  - exact (handle_players_ok _ _ _ _ IH Hstep).
Qed.

(** ** Invariants of the two maps *)

Lemma reachable_lasting s c r :
  reachable s -> rooms s !! c = Some r ->
  Forall is_upper (list_ascii_of_string c) /\
  1 <= round (gameState r) /\
  0 <= player1Wins (gameState r) /\ 0 <= player2Wins (gameState r).
Proof.
  intros Hs. revert c r.
  induction Hs as [|s e s' out _ IH Hstep]; intros c r' Hc.
  - unfold initial in Hc; simpl in Hc. by rewrite lookup_empty in Hc.
  - destruct (handle_rooms _ _ _ _ _ _ Hstep Hc)
      as [(r & Hr & Hev)|(_ & sid & draws & t1 & t2 & _ & _ & Hgen & ->)].
    + destruct (IH c r Hr) as (Hup & Hround & Hw1 & Hw2).
      destruct Hev as (_ & _ & Hr' & Hw1' & Hw2' & _).
      split_and!; [exact Hup | lia | lia | lia].
    + pose proof (generateRoomCode_result (rooms s) _ draws (Nat.le_refl _)) as Hg.
      rewrite Hgen in Hg. destruct Hg as (_ & Hup & _).
      split_and!; [exact Hup | simpl; lia | simpl; lia | simpl; lia].
Qed.

(** X1: in every state the server can reach, both health values of a room lie
    between 0 and 100, and a room whose game is active lists exactly two
    players, both with health above 0. *)
Theorem reachable_combat_state (s : State) (c : string) (r : Room) :
  reachable s ->
  rooms s !! c = Some r ->
  0 <= player1Health (gameState r) <= 100 /\
  0 <= player2Health (gameState r) <= 100 /\
  (gameActive (gameState r) = true ->
     List.length (room_players r) = 2%nat /\
     0 < player1Health (gameState r) /\ 0 < player2Health (gameState r)).
Proof.
  intros Hs Hc.
  destruct (rooms_ok_lookup _ _ _ (reachable_ok _ Hs) Hc)
    as (_ & _ & _ & _ & H1 & H2 & Hact).
  split_and!; try lia. intros Ha. destruct (Hact Ha) as (? & ? & ?). auto.
Qed.

Lemma reachable_combat_state_witness :
  rooms (state_after mid_game) !! "AAAA" = Some mid_game_room /\
  (gameActive (gameState mid_game_room) = true ->
   List.length (room_players mid_game_room) = 2%nat /\
   0 < player1Health (gameState mid_game_room) /\
   0 < player2Health (gameState mid_game_room)).
Proof.
  split; [exact mid_game_room_stored|].
  exact (proj2 (proj2 (reachable_combat_state (state_after mid_game) "AAAA" mid_game_room
                         (state_after_reachable mid_game) mid_game_room_stored))).
Defined.

(** X2: in every reachable state a room is stored under its own code, the
    code is four upper-case letters, its round counter is at least 1 and its
    win counters are not negative. *)
Theorem reachable_room_identity (s : State) (c : string) (r : Room) :
  reachable s ->
  rooms s !! c = Some r ->
  code r = c /\
  String.length c = 4%nat /\
  Forall is_upper (list_ascii_of_string c) /\
  1 <= round (gameState r) /\
  0 <= player1Wins (gameState r) /\ 0 <= player2Wins (gameState r).
Proof.
  intros Hs Hc.
  destruct (rooms_ok_lookup _ _ _ (reachable_ok _ Hs) Hc) as (Hk & Hcode & _).
  destruct (reachable_lasting _ _ _ Hs Hc) as (Hup & Hr & Hw1 & Hw2).
  split_and!; assumption.
Qed.

Lemma reachable_room_identity_witness :
  rooms (state_after mid_game) !! "AAAA" = Some mid_game_room /\
  code mid_game_room = "AAAA" /\ 1 <= round (gameState mid_game_room).
Proof.
  split; [exact mid_game_room_stored|].
  destruct (reachable_room_identity (state_after mid_game) "AAAA" mid_game_room
              (state_after_reachable mid_game) mid_game_room_stored)
    as (Hcode & _ & _ & Hround & _).
  split; assumption.
Defined.

(** X3: in every reachable state the registry holds, for a connection, a
    record with that connection's id and a name that is not falsy, and the
    record's room is [null] or the code of a room in the store whose player
    list contains the connection. *)
Theorem reachable_registry (s : State) (q : string) (p : Player) :
  reachable s ->
  players s !! q = Some p ->
  player_id p = q /\
  truthy (player_name p) = true /\
  (forall c, player_room p = Some c ->
     exists r, rooms s !! c = Some r /\ q ∈ room_players r).
Proof.
  intros Hs Hq. exact (reachable_players_ok s Hs q p Hq).
Qed.

Lemma reachable_registry_witness :
  players (state_after mid_game) !! "a" = Some player_a /\
  exists r, rooms (state_after mid_game) !! "AAAA" = Some r /\ "a" ∈ room_players r.
Proof.
  split; [exact mid_game_player_a|].
  exact (proj2 (proj2 (reachable_registry (state_after mid_game) "a" player_a
                         (state_after_reachable mid_game) mid_game_player_a))
               "AAAA" eq_refl).
Defined.

Lemma sweep_keeps_rooms s now :
  reachable s -> filter (fun kr => ~ stale now kr) (rooms s) = rooms s.
Proof.
  intros Hs. apply map_filter_id. intros c r Hc [Hz _]. simpl in Hz.
  apply nil_length_inv in Hz.
  exact (rooms_nonempty _ _ _ Hs Hc Hz).
Qed.

(** X4: on a reachable state the periodic sweep deletes nothing, whatever the
    clock reads: no room of the store has an empty player list. *)
Theorem sweep_deletes_nothing (s : State) (now : Z) :
  reachable s -> on_sweep now s = Done s [].
Proof.
  intros Hs. unfold on_sweep. rewrite (sweep_keeps_rooms s now Hs).
  destruct s; reflexivity.
Qed.

Lemma sweep_deletes_nothing_witness :
  on_sweep 100000000 (state_after mid_game) = Done (state_after mid_game) [].
Proof.
  exact (sweep_deletes_nothing (state_after mid_game) 100000000
           (state_after_reachable mid_game)).
Defined.

Lemma first_punch_step :
  handle first_punch (state_after first_round) =
    Done (state_after mid_game)
         [ io_to_emit "AAAA" (game_action_msg (JStr "punch") (JStr "player1") 19);
           io_to_emit "AAAA" (game_update 100 81 player2 None 0 0) ].
Proof. vm_compute. reflexivity. Qed.

(** X5: a connection listed in a room stays listed there through every event
    other than its own [leave_room] and its own [disconnect]: no other
    connection's event, no game event and no sweep takes it off the list. *)
Theorem stays_listed (e : Event) (s s' : State) (out : list Effect) (q c : string) :
  handle e s = Done s' out ->
  listed s q c ->
  ~ unlists e q ->
  listed s' q c.
Proof. apply handle_listed. Qed.

Lemma stays_listed_witness :
  listed (state_after first_round) "b" "AAAA" /\
  listed (state_after mid_game) "b" "AAAA".
Proof.
  assert (Hl : listed (state_after first_round) "b" "AAAA").
  { exists first_round_room. split; [exact first_round_room_stored|].
    simpl. apply elem_of_cons. right. apply list_elem_of_singleton. reflexivity. }
  split; [exact Hl|].
  exact (stays_listed first_punch _ _ _ "b" "AAAA" first_punch_step Hl (fun H => H)).
Defined.

(** ** Frame properties *)

Lemma handle_players_frame e s s' out q :
  handle e s = Done s' out ->
  sender e <> Some q ->
  players s' !! q = players s !! q.
Proof.
  intros He Hq.
  destruct e as [sid now|sid data|sid draws t1 t2|sid data now|sid data now
                |sid data now|sid data now u|sid data now|sid now|now]; simpl in *;
    try (assert (Hne : sid <> q) by congruence).
  - injection He as <- <-. simpl. by rewrite lookup_insert_ne.
  - unfold on_set_name in He. repeat case_match; try discriminate;
      injection He as <- <-; simpl; [by rewrite lookup_insert_ne | reflexivity].
  - unfold on_create_room in He. repeat case_match; try discriminate;
      injection He as <- <-; simpl; [by rewrite lookup_insert_ne | reflexivity].
  - unfold on_join_room in He. repeat case_match; try discriminate;
      injection He as <- <-; simpl; try reflexivity. by rewrite lookup_insert_ne.
  - unfold on_leave_room in He. repeat case_match; try discriminate;
      injection He as <- <-; simpl; try reflexivity; by rewrite lookup_insert_ne.
  - unfold on_start_game in He. repeat case_match; try discriminate;
      injection He as <- <-; reflexivity.
  - unfold on_game_action in He. repeat case_match; try discriminate;
      injection He as <- <-; reflexivity.
  - unfold on_restart_game in He. repeat case_match; try discriminate;
      injection He as <- <-; reflexivity.
  - unfold on_disconnect in He. repeat case_match;
      injection He as <- <-; simpl; by rewrite lookup_delete_ne.
  - injection He as <- <-. reflexivity.
Qed.

(** X6: an event changes no record of the registry but the one of the
    connection it comes from; the sweep changes none. *)
Theorem other_records_untouched (e : Event) (s s' : State) (out : list Effect) (q : string) :
  handle e s = Done s' out ->
  sender e <> Some q ->
  players s' !! q = players s !! q.
Proof. apply handle_players_frame. Qed.

Lemma other_records_untouched_witness :
  players (state_after mid_game) !! "b" = players (state_after first_round) !! "b".
Proof.
  apply (other_records_untouched first_punch _ _ _ "b" first_punch_step).
  simpl. discriminate.
Defined.

(** X7: a room that was not in the store before an event and is there after
    it was made by a [create_room] of a registered connection, under the code
    the generator returned: it lists that connection alone, is not active,
    has both health values at 100, round 1 and no wins. *)
Theorem rooms_come_from_create_room (e : Event) (s s' : State) (out : list Effect)
    (c : string) (r' : Room) :
  handle e s = Done s' out ->
  rooms s !! c = None ->
  rooms s' !! c = Some r' ->
  exists sid draws t1 t2,
    e = create_room sid draws t1 t2 /\
    is_Some (players s !! sid) /\
    generateRoomCode (rooms s) draws = Some c /\
    r' = created_room sid c t1 t2.
Proof.
  intros He Hnone Hc.
  destruct (handle_rooms _ _ _ _ _ _ He Hc) as [(r & Hr & _)|(_ & H)].
  - congruence.
  - exact H.
Qed.

Lemma rooms_come_from_create_room_witness :
  exists sid draws t1 t2,
    create_room "a" [0; 0; 0; 0] 3 4 = create_room sid draws t1 t2 /\
    is_Some (players (state_after [connection "a" 1]) !! sid) /\
    generateRoomCode (rooms (state_after [connection "a" 1])) draws = Some "AAAA" /\
    created_room "a" "AAAA" 3 4 = created_room sid "AAAA" t1 t2.
Proof.
  apply (rooms_come_from_create_room (create_room "a" [0; 0; 0; 0] 3 4)
           (state_after [connection "a" 1])
           (state_after [connection "a" 1; create_room "a" [0; 0; 0; 0] 3 4])
           [ socket_join "a" "AAAA"; socket_emit "a" (room_created "AAAA");
             io_to_emit "AAAA" (player_joined ["a"] "a") ]).
  - vm_compute. reflexivity.
  - vm_compute. reflexivity.
  - vm_compute. reflexivity.
Defined.

(** X8: across any one event a room that stays in the store keeps its code
    and its creation time, its round counter stays or goes up by one, neither
    win counter goes down and the two together gain at most one. *)
Theorem lasting_fields_evolve (e : Event) (s s' : State) (out : list Effect)
    (c : string) (r r' : Room) :
  handle e s = Done s' out ->
  rooms s !! c = Some r ->
  rooms s' !! c = Some r' ->
  code r' = code r /\
  createdAt r' = createdAt r /\
  round (gameState r) <= round (gameState r') <= round (gameState r) + 1 /\
  player1Wins (gameState r) <= player1Wins (gameState r') /\
  player2Wins (gameState r) <= player2Wins (gameState r') /\
  player1Wins (gameState r') + player2Wins (gameState r')
    <= player1Wins (gameState r) + player2Wins (gameState r) + 1.
Proof.
  intros He Hr Hr'.
  destruct (handle_rooms _ _ _ _ _ _ He Hr') as [(r0 & Hr0 & Hev)|(Hnone & _)].
  - assert (r0 = r) as -> by congruence. exact Hev.
  - congruence.
Qed.

Lemma lasting_fields_evolve_witness :
  code mid_game_room = code first_round_room /\
  createdAt mid_game_room = createdAt first_round_room.
Proof.
  destruct (lasting_fields_evolve first_punch _ _ _ "AAAA" first_round_room mid_game_room
              first_punch_step first_round_room_stored mid_game_room_stored)
    as (H1 & H2 & _).
  split; assumption.
Defined.

(** X9: [create_room] replaces no room: every room of the store is still
    there, unchanged, after it, because the generator hands out a code only
    when no room has it. *)
Theorem create_room_keeps_rooms (sid : string) (draws : list Z) (t1 t2 : Z)
    (s s' : State) (out : list Effect) (c : string) (r : Room) :
  on_create_room sid draws t1 t2 s = Done s' out ->
  rooms s !! c = Some r ->
  rooms s' !! c = Some r.
Proof.
  unfold on_create_room. intros He Hc.
  destruct (players s !! sid); [|injection He as <- <-; exact Hc].
  pose proof (generateRoomCode_result (rooms s) _ draws (Nat.le_refl _)) as Hg.
  destruct (generateRoomCode (rooms s) draws) as [c0|]; [|discriminate].
  destruct Hg as (_ & _ & Hfresh). injection He as <- <-. simpl.
  rewrite lookup_insert_ne by congruence. exact Hc.
Qed.

Lemma create_room_keeps_rooms_witness :
  rooms (state_after (mid_game ++ [second_room])%list) !! "AAAA" = Some mid_game_room.
Proof.
  apply (create_room_keeps_rooms "a" [0; 0; 0; 0; 0; 0; 0; two53 - 1] 8 8
           (state_after mid_game) _
           [ socket_join "a" "AAAZ"; socket_emit "a" (room_created "AAAZ");
             io_to_emit "AAAZ" (player_joined ["a"] "a") ]
           "AAAA" mid_game_room).
  - vm_compute. reflexivity.
  - exact mid_game_room_stored.
Defined.

Lemma rooms_get_target s d c room :
  rooms_get s (f_roomCode d) = Some (c, room) ->
  match f_roomCode d with JStr c0 => Some c0 | _ => None end = Some c.
Proof. intros H. apply rooms_get_Some in H as [-> _]. reflexivity. Qed.

(** X10: on a reachable state an event changes no room but the one it is
    aimed at: the room its payload names, for [leave_room] and [disconnect]
    the room in the caller's record whatever the payload names, for
    [create_room] the new room.  [connection], [set_name] and the sweep
    change no room at all. *)
Theorem only_target_room_changes (e : Event) (s s' : State) (out : list Effect) (c : string) :
  reachable s ->
  handle e s = Done s' out ->
  target e s <> Some c ->
  rooms s' !! c = rooms s !! c.
Proof.
  intros Hs He Ht.
  destruct e as [sid now|sid data|sid draws t1 t2|sid data now|sid data now
                |sid data now|sid data now u|sid data now|sid now|now]; simpl in *.
  - injection He as <- <-. reflexivity.
  - unfold on_set_name in He. repeat case_match; try discriminate;
      injection He as <- <-; reflexivity.
  - unfold on_create_room in He.
    destruct (players s !! sid); [|injection He as <- <-; reflexivity].
    destruct (generateRoomCode (rooms s) draws) as [c0|]; [|discriminate].
    injection He as <- <-. simpl. apply lookup_insert_ne. congruence.
  - unfold on_join_room in He.
    destruct (players s !! sid); [|injection He as <- <-; reflexivity].
    destruct data as [|d]; [discriminate|].
    destruct (rooms_get s (f_roomCode d)) as [[c0 room]|] eqn:Hget;
      [|injection He as <- <-; reflexivity].
    apply rooms_get_target in Hget. rewrite Hget in Ht.
    case_match; injection He as <- <-; [reflexivity|].
    simpl. apply lookup_insert_ne. congruence.
  - unfold on_leave_room in He.
    destruct (room_of s sid) as [c0|]; [|injection He as <- <-; reflexivity].
    destruct (players s !! sid) as [p|]; [|injection He as <- <-; reflexivity].
    destruct data as [|d].
    { destruct (rooms s !! c0); [case_match|]; discriminate. }
    destruct (rooms s !! c0) as [room|];
      [destruct (List.length (without sid (room_players room)) =? 0)%nat|];
      injection He as <- <-; simpl.
    + apply lookup_delete_ne. congruence.
    + apply lookup_insert_ne. congruence.
    + reflexivity.
  - unfold on_start_game in He.
    destruct data as [|d]; [discriminate|].
    destruct (rooms_get s (f_roomCode d)) as [[c0 room]|] eqn:Hget;
      [|injection He as <- <-; reflexivity].
    apply rooms_get_target in Hget. rewrite Hget in Ht.
    case_match; injection He as <- <-; [reflexivity|].
    simpl. apply lookup_insert_ne. congruence.
  - unfold on_game_action in He.
    destruct data as [|d]; [discriminate|].
    destruct (rooms_get s (f_roomCode d)) as [[c0 room]|] eqn:Hget;
      [|injection He as <- <-; reflexivity].
    apply rooms_get_target in Hget. rewrite Hget in Ht.
    destruct (negb (gameActive (gameState room))); [injection He as <- <-; reflexivity|].
    destruct (players s !! sid); [|injection He as <- <-; reflexivity].
    destruct (room_players room) as [|first rest]; [discriminate|].
    case_bool_decide; [injection He as <- <-; reflexivity|].
    destruct (resolve_action c0 d now u room) as [room' out'].
    injection He as <- <-. simpl. apply lookup_insert_ne. congruence.
  - unfold on_restart_game in He.
    destruct data as [|d]; [discriminate|].
    destruct (rooms_get s (f_roomCode d)) as [[c0 room]|] eqn:Hget;
      [|injection He as <- <-; reflexivity].
    apply rooms_get_target in Hget. rewrite Hget in Ht.
    case_match; injection He as <- <-; [reflexivity|].
    simpl. apply lookup_insert_ne. congruence.
  - unfold on_disconnect in He.
    destruct (room_of s sid) as [c0|]; [|injection He as <- <-; reflexivity].
    destruct (rooms s !! c0) as [room|];
      [destruct (List.length (without sid (room_players room)) =? 0)%nat|];
      injection He as <- <-; simpl.
    + apply lookup_delete_ne. congruence.
    + apply lookup_insert_ne. congruence.
    + reflexivity.
  - injection He as <- <-. simpl. by rewrite sweep_keeps_rooms.
Qed.

Lemma only_target_room_changes_witness :
  rooms (state_after (mid_game ++ [second_room])%list) !! "AAAA"
  = rooms (state_after mid_game) !! "AAAA".
Proof.
  apply (only_target_room_changes second_room (state_after mid_game) _
           [ socket_join "a" "AAAZ"; socket_emit "a" (room_created "AAAZ");
             io_to_emit "AAAZ" (player_joined ["a"] "a") ]
           "AAAA" (state_after_reachable mid_game)).
  - vm_compute. reflexivity.
  - vm_compute. discriminate.
Defined.

(** ** Leaving twice, disconnecting twice, late events *)

Lemma room_of_unregistered s sid : players s !! sid = None -> room_of s sid = None.
Proof. intros H. unfold room_of. by rewrite H. Qed.

(** X11: a second [leave_room] of the same connection, right after one that
    ran to completion, does nothing: it leaves the state as it is, sends
    nothing and, returning before line 171, does not even read its payload. *)
Theorem leave_room_twice (sid : string) (data data' : Payload) (now now' : Z)
    (s s1 : State) (out : list Effect) :
  on_leave_room sid data now s = Done s1 out ->
  on_leave_room sid data' now' s1 = Done s1 [].
Proof.
  unfold on_leave_room at 1.
  destruct (room_of s sid) as [c0|] eqn:Hroom.
  - destruct (players s !! sid) as [p|] eqn:Hp.
    + destruct data as [|d].
      { destruct (rooms s !! c0); [case_match|]; discriminate. }
      intros He.
      assert (Hp1 : players s1 !! sid = Some (clear_room_of p)).
      { destruct (rooms s !! c0);
          [destruct (List.length (without sid (room_players r)) =? 0)%nat|];
          injection He as <- <-; simpl; apply lookup_insert_eq. }
      unfold on_leave_room, room_of. rewrite Hp1. reflexivity.
    + intros [= <- <-]. unfold on_leave_room. by rewrite Hroom, Hp.
  - intros [= <- <-]. unfold on_leave_room. by rewrite Hroom.
Qed.

Lemma leave_room_twice_witness :
  exists s1 out,
    on_leave_room "a" (Data (payload "AAAA" "" "")) 9 (state_after mid_game) = Done s1 out /\
    on_leave_room "a" NoData 10 s1 = Done s1 [].
Proof.
  destruct (on_leave_room "a" (Data (payload "AAAA" "" "")) 9 (state_after mid_game))
    as [s1 out| |] eqn:He.
  - exists s1, out. split; [reflexivity|].
    exact (leave_room_twice "a" _ NoData 9 10 _ _ _ He).
  - exfalso. vm_compute in He. discriminate.
  - exfalso. vm_compute in He. discriminate.
Defined.

(** X12: a disconnect always runs to completion and takes the connection out
    of the registry; a second disconnect of the same connection then changes
    nothing and sends nothing. *)
Theorem disconnect_twice (sid : string) (now now' : Z) (s : State) :
  exists s1 out,
    on_disconnect sid now s = Done s1 out /\
    players s1 !! sid = None /\
    on_disconnect sid now' s1 = Done s1 [].
Proof.
  assert (H1 : exists s1 out, on_disconnect sid now s = Done s1 out /\
                              players s1 !! sid = None).
  { unfold on_disconnect. repeat case_match; eexists _, _; (split; [reflexivity|]);
      simpl; apply lookup_delete_eq. }
  destruct H1 as (s1 & out & He & Hp). exists s1, out.
  split; [exact He|]. split; [exact Hp|].
  unfold on_disconnect. rewrite (room_of_unregistered _ _ Hp).
  rewrite (delete_id _ _ Hp). destruct s1; reflexivity.
Qed.

(** X13: events of a connection that is not in the registry (one that has
    disconnected) are ignored by [set_name], [create_room], [join_room],
    [leave_room] and, on a structured payload, [game_action]: the state stays
    as it is and nothing is sent, not even an error.  The first four do not
    read their payload, so they do not throw on a missing one either. *)
Theorem unregistered_caller_ignored (s : State) (sid : string) (data : Payload)
    (d : Fields) (draws : list Z) (now t : Z) :
  players s !! sid = None ->
  on_set_name sid data s = Done s [] /\
  on_create_room sid draws now t s = Done s [] /\
  on_join_room sid data now s = Done s [] /\
  on_leave_room sid data now s = Done s [] /\
  on_game_action sid (Data d) now t s = Done s [].
Proof.
  intros Hp. split_and!.
  - unfold on_set_name. by rewrite Hp.
  - unfold on_create_room. by rewrite Hp.
  - unfold on_join_room. by rewrite Hp.
  - unfold on_leave_room. by rewrite (room_of_unregistered _ _ Hp).
  - unfold on_game_action. rewrite Hp. repeat case_match; reflexivity.
Qed.

Lemma unregistered_caller_ignored_witness :
  on_join_room "z" NoData 9 (state_after mid_game) = Done (state_after mid_game) [] /\
  on_game_action "z" (Data (payload "AAAA" "player2" "kick")) 9 0 (state_after mid_game)
    = Done (state_after mid_game) [].
Proof.
  assert (Hp : players (state_after mid_game) !! "z" = None) by (vm_compute; reflexivity).
  destruct (unregistered_caller_ignored (state_after mid_game) "z" NoData
              (payload "AAAA" "player2" "kick") [] 9 0 Hp) as (_ & _ & Hj & _ & Hg).
  split; assumption.
Defined.

(** ** More on the code generator *)

(** X14: the code the generator returns is the one drawn by the first attempt
    that is not the code of a room in the store; every attempt before it drew
    a code in use. *)
Theorem generateRoomCode_first_fresh (rs : gmap string Room) (draws : list Z) (c : string) :
  generateRoomCode rs draws = Some c ->
  exists k,
    (4 * (k + 1) <= List.length draws)%nat /\
    c = draw_code (attempt k draws) /\
    rs !! c = None /\
    forall j, (j < k)%nat -> is_Some (rs !! draw_code (attempt j draws)).
Proof.
  pose proof (Nat.le_refl (List.length draws)) as Hle.
  revert Hle. generalize (List.length draws) at 2. intros n.
  revert draws c. induction n as [|n IH]; intros draws c Hle.
  - destruct draws; [discriminate | simpl in Hle; lia].
  - destruct draws as [|u0 [|u1 [|u2 [|u3 rest]]]]; try discriminate.
    rewrite generateRoomCode_unfold.
    destruct (decide (is_Some (rs !! draw_code [u0; u1; u2; u3]))) as [Hin|Hout].
    + intros Hrest. simpl in Hle.
      destruct (IH rest c ltac:(lia) Hrest) as (k & Hk & Hc & Hfresh & Hbefore).
      exists (S k). split; [cbn [List.length]; lia|]. rewrite attempt_next.
      split; [exact Hc|]. split; [exact Hfresh|].
      intros [|j] Hj; [exact Hin|]. rewrite attempt_next. apply Hbefore. lia.
    + intros [= <-]. exists 0%nat. split; [simpl; lia|].
      split; [reflexivity|]. split; [by apply eq_None_not_Some|]. intros j Hj. lia.
Qed.

Lemma generateRoomCode_first_fresh_witness :
  exists k,
    (4 * (k + 1) <= 8)%nat /\
    "AAAZ" = draw_code (attempt k [0; 0; 0; 0; 0; 0; 0; two53 - 1]) /\
    rooms (state_after mid_game) !! "AAAZ" = None /\
    forall j, (j < k)%nat ->
      is_Some (rooms (state_after mid_game) !! draw_code (attempt j [0; 0; 0; 0; 0; 0; 0; two53 - 1])).
Proof.
  apply (generateRoomCode_first_fresh (rooms (state_after mid_game))
           [0; 0; 0; 0; 0; 0; 0; two53 - 1] "AAAZ").
  vm_compute. reflexivity.
Defined.

Lemma letter_draw i :
  0 <= i < 26 -> random_char ((i * two53 + 25) / 26) = charAt chars i.
Proof.
  intros Hi.
  assert (Hn : exists n : nat, (n < 26)%nat /\ i = Z.of_nat n).
  { exists (Z.to_nat i). lia. }
  destruct Hn as (n & Hn & ->).
  do 26 (destruct n as [|n]; [vm_compute; reflexivity |]).
  lia.
Qed.

(** X15: every code of four letters A-Z that no room has can be generated:
    there are draws on which the generator returns it at the first attempt. *)
Theorem generateRoomCode_can_return (rs : gmap string Room) (i0 i1 i2 i3 : Z) :
  0 <= i0 < 26 -> 0 <= i1 < 26 -> 0 <= i2 < 26 -> 0 <= i3 < 26 ->
  rs !! (charAt chars i0 +:+ charAt chars i1 +:+ charAt chars i2 +:+ charAt chars i3) = None ->
  exists draws,
    generateRoomCode rs draws =
      Some (charAt chars i0 +:+ charAt chars i1 +:+ charAt chars i2 +:+ charAt chars i3).
Proof.
  intros H0 H1 H2 H3 Hfree.
  exists [(i0 * two53 + 25) / 26; (i1 * two53 + 25) / 26;
          (i2 * two53 + 25) / 26; (i3 * two53 + 25) / 26].
  rewrite generateRoomCode_unfold.
  assert (Hcode : draw_code [(i0 * two53 + 25) / 26; (i1 * two53 + 25) / 26;
                             (i2 * two53 + 25) / 26; (i3 * two53 + 25) / 26]
                  = charAt chars i0 +:+ charAt chars i1 +:+ charAt chars i2 +:+ charAt chars i3).
  { unfold draw_code. cbn [fold_left]. rewrite !letter_draw by assumption.
    rewrite !charAt_chars_code by assumption. reflexivity. }
  rewrite Hcode, Hfree.
  destruct (decide (is_Some (@None Room))) as [[x Hx]|_]; [discriminate|reflexivity].
Qed.

Lemma generateRoomCode_can_return_witness :
  exists draws, generateRoomCode (rooms (state_after mid_game)) draws = Some "ROOM".
Proof.
  apply (generateRoomCode_can_return (rooms (state_after mid_game)) 17 14 14 12);
    try lia.
  vm_compute. reflexivity.
Defined.

(** ** Who may act *)

Lemma on_game_action_rejected sid d now u s c room first rest :
  f_roomCode d = JStr c -> rooms s !! c = Some room ->
  gameActive (gameState room) = true -> is_Some (players s !! sid) ->
  room_players room = first :: rest ->
  currentTurn (gameState room) <> expectedTurn first sid ->
  on_game_action sid (Data d) now u s = Done s [socket_emit sid (error "Not your turn!")].
Proof.
  intros Hd Hc Ha [p Hp] Hps Hturn.
  unfold on_game_action, rooms_get. rewrite Hd, Hc, Ha, Hp, Hps. simpl.
  rewrite bool_decide_eq_true_2 by exact Hturn. reflexivity.
Qed.

(** X16: the turn check takes every registered connection other than the
    first of the room's list for seat B, whether the list contains it or
    not: on seat B's turn its [game_action] passes the check and is
    resolved. *)
Theorem any_other_connection_is_seat_b (s : State) (sid : string) (d : Fields)
    (now u : Z) (c : string) (room : Room) (first : string) (rest : list string) :
  f_roomCode d = JStr c ->
  rooms s !! c = Some room ->
  gameActive (gameState room) = true ->
  is_Some (players s !! sid) ->
  room_players room = first :: rest ->
  sid <> first ->
  currentTurn (gameState room) = player2 ->
  on_game_action sid (Data d) now u s =
    Done {| rooms := <[c := (resolve_action c d now u room).1]> (rooms s);
            players := players s |}
         (resolve_action c d now u room).2.
Proof.
  intros Hd Hc Ha Hp Hps Hne Ht.
  apply on_game_action_accepted. unfold accepted.
  split_and!; try assumption. exists first, rest. split; [exact Hps|].
  unfold expectedTurn. rewrite bool_decide_eq_false_2 by congruence. exact Ht.
Qed.

Lemma visitor_sees_mid_game :
  rooms (state_after with_visitor) !! "AAAA" = Some mid_game_room /\
  is_Some (players (state_after with_visitor) !! "z").
Proof. split; [vm_compute; reflexivity | vm_compute; eexists; reflexivity]. Qed.

Lemma any_other_connection_is_seat_b_witness :
("z" ∉ room_players mid_game_room) /\
  on_game_action "z" (Data (payload "AAAA" "player2" "kick")) 9 0 (state_after with_visitor) =
    Done {| rooms := <["AAAA" := (resolve_action "AAAA" (payload "AAAA" "player2" "kick")
                                    9 0 mid_game_room).1]>
                       (rooms (state_after with_visitor));
            players := players (state_after with_visitor) |}
         [ io_to_emit "AAAA" (game_action_msg (JStr "kick") (JStr "player2") 10);
           io_to_emit "AAAA" (game_update 90 81 player1 None 0 0) ].
Proof.
  split.
  - simpl. intros H. apply elem_of_cons in H as [H|H]; [discriminate|].
    apply list_elem_of_singleton in H. discriminate.
  - apply (any_other_connection_is_seat_b (state_after with_visitor) "z"
             (payload "AAAA" "player2" "kick") 9 0 "AAAA" mid_game_room "a" ["b"]).
    + reflexivity.
    + exact (proj1 visitor_sees_mid_game).
    + reflexivity.
    + exact (proj2 visitor_sees_mid_game).
    + reflexivity.
    + discriminate.
    + reflexivity.
Defined.

(** X17: while a game between two different registered players is active,
    exactly one of them can act: the action of the one whose seat holds the
    turn (the first of the list on seat A's turn, the second on seat B's)
    passes the check, and the action of the other is answered with the
    private error and changes nothing. *)
Theorem one_seat_may_act (s : State) (d : Fields) (now u : Z)
    (c : string) (room : Room) (a b : string) :
  f_roomCode d = JStr c ->
  rooms s !! c = Some room ->
  gameActive (gameState room) = true ->
  room_players room = [a; b] ->
  a <> b ->
  is_Some (players s !! a) ->
  is_Some (players s !! b) ->
  (currentTurn (gameState room) = player1 /\
   accepted a d s c room /\
   on_game_action b (Data d) now u s = Done s [socket_emit b (error "Not your turn!")]) \/
  (currentTurn (gameState room) = player2 /\
   accepted b d s c room /\
   on_game_action a (Data d) now u s = Done s [socket_emit a (error "Not your turn!")]).
Proof.
  intros Hd Hc Ha Hps Hab Hpa Hpb.
  destruct (currentTurn (gameState room)) eqn:Ht; [left|right];
    (split; [reflexivity|]); split.
  - unfold accepted. split_and!; try assumption. exists a, [b].
    split; [exact Hps|]. unfold expectedTurn. by rewrite bool_decide_eq_true_2.
  - eapply on_game_action_rejected; try eassumption.
    unfold expectedTurn. rewrite bool_decide_eq_false_2 by exact Hab.
    rewrite Ht. discriminate.
  - unfold accepted. split_and!; try assumption. exists a, [b].
    split; [exact Hps|]. unfold expectedTurn. by rewrite bool_decide_eq_false_2.
  - eapply on_game_action_rejected; try eassumption.
    unfold expectedTurn. rewrite bool_decide_eq_true_2 by reflexivity.
    rewrite Ht. discriminate.
Qed.

Lemma one_seat_may_act_witness :
  currentTurn (gameState mid_game_room) = player2 /\
  accepted "b" (payload "AAAA" "player2" "punch") (state_after mid_game) "AAAA" mid_game_room /\
  on_game_action "a" (Data (payload "AAAA" "player2" "punch")) 9 0 (state_after mid_game)
    = Done (state_after mid_game) [socket_emit "a" (error "Not your turn!")].
Proof.
  destruct (one_seat_may_act (state_after mid_game) (payload "AAAA" "player2" "punch") 9 0
              "AAAA" mid_game_room "a" "b" eq_refl mid_game_room_stored eq_refl eq_refl)
    as [(Ht & _)|H].
  - discriminate.
  - vm_compute. eexists. reflexivity.
  - vm_compute. eexists. reflexivity.
  - discriminate Ht.
  - exact H.
Defined.

(** ** The end of a round *)

Lemma idle_step e s s1 out c :
  idle s c -> handle e s = Done s1 out -> ~ starts c e -> idle s1 c.
Proof.
  intros Hidle He Hst r1 Hr1.
  assert (Hupd : forall c0 r0, rooms s1 = <[c0 := r0]> (rooms s) ->
            (c0 = c -> gameActive (gameState r0) = false) ->
            gameActive (gameState r1) = false).
  { intros c0 r0 Hrooms Hoff. rewrite Hrooms in Hr1.
    destruct (decide (c0 = c)) as [->|Hne].
    - rewrite lookup_insert_eq in Hr1. injection Hr1 as <-. by apply Hoff.
    - rewrite lookup_insert_ne in Hr1 by exact Hne. by apply (Hidle r1). }
  assert (Hdel : forall c0, rooms s1 = delete c0 (rooms s) ->
            gameActive (gameState r1) = false).
  { intros c0 Hrooms. rewrite Hrooms in Hr1.
    apply lookup_delete_Some in Hr1 as [_ Hr1]. by apply (Hidle r1). }
  assert (Hsame : rooms s1 = rooms s -> gameActive (gameState r1) = false).
  { intros Hrooms. rewrite Hrooms in Hr1. by apply (Hidle r1). }
  destruct e as [sid now|sid data|sid draws t1 t2|sid data now|sid data now
                |sid data now|sid data now u|sid data now|sid now|now]; simpl in *.
  - injection He as <- <-. by apply Hsame.
  - unfold on_set_name in He. repeat case_match; try discriminate;
      injection He as <- <-; by apply Hsame.
  - unfold on_create_room in He.
    destruct (players s !! sid); [|injection He as <- <-; by apply Hsame].
    destruct (generateRoomCode (rooms s) draws) as [c0|]; [|discriminate].
    injection He as <- <-. eapply (Hupd c0); [reflexivity | reflexivity].
  - unfold on_join_room in He.
    destruct (players s !! sid); [|injection He as <- <-; by apply Hsame].
    destruct data as [|d]; [discriminate|].
    destruct (rooms_get s (f_roomCode d)) as [[c0 room]|] eqn:Hget;
      [|injection He as <- <-; by apply Hsame].
    apply rooms_get_Some in Hget as [_ Hc0].
    case_match; injection He as <- <-; [by apply Hsame|].
    eapply (Hupd c0); [reflexivity |]. simpl. intros ->. by apply Hidle.
  - unfold on_leave_room in He.
    destruct (room_of s sid) as [c0|]; [|injection He as <- <-; by apply Hsame].
    destruct (players s !! sid) as [p|]; [|injection He as <- <-; by apply Hsame].
    destruct data as [|d].
    { destruct (rooms s !! c0); [case_match|]; discriminate. }
    destruct (rooms s !! c0) as [room|];
      [destruct (List.length (without sid (room_players room)) =? 0)%nat|];
      injection He as <- <-.
    + by apply (Hdel c0).
    + eapply (Hupd c0); [reflexivity | reflexivity].
    + by apply Hsame.
  - unfold on_start_game in He.
    destruct data as [|d]; [discriminate|].
    destruct (rooms_get s (f_roomCode d)) as [[c0 room]|] eqn:Hget;
      [|injection He as <- <-; by apply Hsame].
    apply rooms_get_Some in Hget as [Hd Hc0].
    case_match; injection He as <- <-; [by apply Hsame|].
    eapply (Hupd c0); [reflexivity |]. intros ->. contradiction.
  - unfold on_game_action in He.
    destruct data as [|d]; [discriminate|].
    destruct (rooms_get s (f_roomCode d)) as [[c0 room]|] eqn:Hget;
      [|injection He as <- <-; by apply Hsame].
    apply rooms_get_Some in Hget as [Hd Hc0].
    destruct (gameActive (gameState room)) eqn:Ha; simpl in He;
      [|injection He as <- <-; by apply Hsame].
    destruct (players s !! sid); [|injection He as <- <-; by apply Hsame].
    destruct (room_players room) as [|first rest]; [discriminate|].
    case_bool_decide; [injection He as <- <-; by apply Hsame|].
    destruct (resolve_action c0 d now u room) as [room' out'].
    injection He as <- <-.
    eapply (Hupd c0); [reflexivity |]. intros ->.
    rewrite (Hidle room Hc0) in Ha. discriminate.
  - unfold on_restart_game in He.
    destruct data as [|d]; [discriminate|].
    destruct (rooms_get s (f_roomCode d)) as [[c0 room]|] eqn:Hget;
      [|injection He as <- <-; by apply Hsame].
    apply rooms_get_Some in Hget as [Hd Hc0].
    case_match; injection He as <- <-; [by apply Hsame|].
    eapply (Hupd c0); [reflexivity |]. intros ->. contradiction.
  - unfold on_disconnect in He.
    destruct (room_of s sid) as [c0|]; [|injection He as <- <-; by apply Hsame].
    destruct (rooms s !! c0) as [room|];
      [destruct (List.length (without sid (room_players room)) =? 0)%nat|];
      injection He as <- <-.
    + by apply (Hdel c0).
    + eapply (Hupd c0); [reflexivity | reflexivity].
    + by apply Hsame.
  - injection He as <- <-. simpl in Hr1.
    apply map_lookup_filter_Some in Hr1 as [Hr1 _]. by apply (Hidle r1).
Qed.

Lemma idle_run es : forall s s' out c,
  idle s c -> Forall (fun e => ~ starts c e) es -> run es s = Done s' out -> idle s' c.
Proof.
  induction es as [|e es IH]; intros s s' out c Hidle Hes; simpl.
  - intros [= <- _]. exact Hidle.
  - apply Forall_cons in Hes as [He Hes].
    destruct (handle e s) as [s1 out1| |] eqn:Hstep; try discriminate.
    destruct (run es s1) as [s2 out2| |] eqn:Hrun; try discriminate.
    intros [= <- _].
    exact (IH _ _ _ _ (idle_step _ _ _ _ _ Hidle Hstep He) Hes Hrun).
Qed.

Lemma idle_ignores_action s c sid d now u :
  idle s c -> f_roomCode d = JStr c -> on_game_action sid (Data d) now u s = Done s [].
Proof.
  intros Hidle Hd. unfold on_game_action, rooms_get. rewrite Hd.
  destruct (rooms s !! c) as [r|] eqn:Hc; [|reflexivity].
  rewrite (Hidle r Hc). reflexivity.
Qed.

(** X18: once an accepted action has taken the last of the target's health,
    a [game_action] on that room, from any connection and with any payload
    that is not [undefined] or [null], is dropped (the state stays as it is
    and nothing is sent, not even the turn error), right away and after any
    events among which there is no [start_game] or [restart_game] naming the
    room. *)
Theorem finished_round_ignores_actions (s s' s'' : State) (out out' : list Effect)
    (sid sid2 : string) (d d2 : Fields) (now u now2 u2 : Z) (c : string) (room : Room)
    (es : list Event) :
  reachable s ->
  accepted sid d s c room ->
  health (defender d) (gameState room) <= damage_of (f_action d) u ->
  on_game_action sid (Data d) now u s = Done s' out ->
  Forall (fun e => ~ starts c e) es ->
  run es s' = Done s'' out' ->
  f_roomCode d2 = JStr c ->
  on_game_action sid2 (Data d2) now2 u2 s'' = Done s'' [].
Proof.
  intros Hs Hacc Hlast He Hes Hrun Hd2.
  apply (idle_ignores_action s'' c); [|exact Hd2].
  apply (idle_run es s' s'' out' c); [|exact Hes|exact Hrun].
  rewrite (on_game_action_accepted _ _ now u _ _ _ Hacc) in He.
  destruct Hacc as (_ & Hc & Ha & _).
  destruct (rooms_ok_lookup _ _ _ (reachable_ok _ Hs) Hc) as (_ & _ & _ & _ & _ & _ & Hact).
  destruct (Hact Ha) as (Hp1 & Hp2 & _).
  destruct (resolve_action_outcome c d now u room Hp1 Hp2)
    as (gs' & winner & Hres & Hh & _ & Hzero & _).
  rewrite Hres in He. simpl in He. injection He as <- <-.
  intros r Hr. simpl in Hr. rewrite lookup_insert_eq in Hr. injection Hr as <-.
  simpl. apply Hzero. rewrite Hh. lia.
Qed.

Lemma late_round_accepts :
  accepted "a" last_blow (state_after late_round) "AAAA" late_round_room.
Proof.
  unfold accepted. split_and!.
  - reflexivity.
  - vm_compute. reflexivity.
  - reflexivity.
  - vm_compute. eexists. reflexivity.
  - exists "a", ["b"]. split; reflexivity.
Qed.

Lemma finished_round_ignores_actions_witness :
  exists s' out s'' out',
    on_game_action "a" (Data last_blow) 11 (two53 - 1) (state_after late_round) = Done s' out /\
    run after_last_blow s' = Done s'' out' /\
    on_game_action "b" (Data (payload "AAAA" "player2" "kick")) 15 0 s'' = Done s'' [].
Proof.
  destruct (on_game_action "a" (Data last_blow) 11 (two53 - 1) (state_after late_round))
    as [s' out| |] eqn:He.
  - destruct (run after_last_blow s') as [s'' out'| |] eqn:Hrun.
    + exists s', out, s'', out'. split; [reflexivity|]. split; [exact Hrun|].
      apply (finished_round_ignores_actions (state_after late_round) s' s'' out out' "a" "b"
               last_blow (payload "AAAA" "player2" "kick") 11 (two53 - 1) 15 0
               "AAAA" late_round_room after_last_blow
               (state_after_reachable late_round) late_round_accepts).
      * vm_compute. discriminate.
      * exact He.
      * unfold after_last_blow.
        repeat (apply Forall_cons; split; [simpl; try tauto; discriminate|]).
        apply Forall_nil_2.
      * exact Hrun.
      * reflexivity.
    + exfalso. vm_compute in He. injection He as <- _. vm_compute in Hrun. discriminate.
    + exfalso. vm_compute in He. injection He as <- _. vm_compute in Hrun. discriminate.
  - exfalso. vm_compute in He. discriminate.
  - exfalso. vm_compute in He. discriminate.
Defined.

(** X19: every accepted action lowers the health of the seat it is aimed at,
    by at most 39, and touches no other health value. *)
Theorem accepted_action_lowers_health (s : State) (sid : string) (d : Fields)
    (now u : Z) (c : string) (room : Room) :
  reachable s ->
  accepted sid d s c room ->
  exists s' out room',
    on_game_action sid (Data d) now u s = Done s' out /\
    rooms s' !! c = Some room' /\
    health (defender d) (gameState room) - 39 <= health (defender d) (gameState room')
      < health (defender d) (gameState room) /\
    health (other_seat (defender d)) (gameState room') =
      health (other_seat (defender d)) (gameState room).
Proof.
  intros Hs Hacc.
  rewrite (on_game_action_accepted _ _ now u _ _ _ Hacc).
  destruct Hacc as (_ & Hc & Ha & _).
  destruct (rooms_ok_lookup _ _ _ (reachable_ok _ Hs) Hc) as (_ & _ & _ & _ & _ & _ & Hact).
  destruct (Hact Ha) as (Hp1 & Hp2 & _).
  destruct (resolve_action_outcome c d now u room Hp1 Hp2)
    as (gs' & winner & -> & Hh & Ho & _ & _).
  pose proof (damage_of_positive (f_action d) u) as Hd.
  eexists _, _, _. split; [reflexivity|]. simpl.
  split; [apply lookup_insert_eq|]. simpl.
  split; [|exact Ho]. rewrite Hh.
  assert (0 < health (defender d) (gameState room)) by (destruct (defender d); simpl; lia).
  lia.
Qed.

Lemma accepted_action_lowers_health_witness :
  exists s' out room',
    on_game_action "a" (Data last_blow) 11 (two53 - 1) (state_after late_round) = Done s' out /\
    rooms s' !! "AAAA" = Some room' /\
    health player2 (gameState room') < 22.
Proof.
  destruct (accepted_action_lowers_health (state_after late_round) "a" last_blow
              11 (two53 - 1) "AAAA" late_round_room
              (state_after_reachable late_round) late_round_accepts)
    as (s' & out & room' & H1 & H2 & (_ & H3) & _).
  exists s', out, room'. split; [exact H1|]. split; [exact H2|]. exact H3.
Defined.

(** ** Rooms left behind *)

Lemma without_self sid : without sid [sid] = [].
Proof.
  unfold without. rewrite filter_cons_False by (intros Hn; exact (Hn eq_refl)).
  apply filter_nil.
Qed.

(** X20: a registered connection that creates a room and then disconnects
    leaves the room store exactly as it was before the [create_room]: the
    disconnect removes the new room and nothing else, and sends nothing.  A
    room that listed the connection before still lists it. *)
Theorem create_then_disconnect (sid : string) (p : Player) (draws : list Z)
    (t1 t2 now : Z) (s s1 : State) (out1 : list Effect) :
  players s !! sid = Some p ->
  on_create_room sid draws t1 t2 s = Done s1 out1 ->
  on_disconnect sid now s1 =
    Done {| rooms := rooms s; players := delete sid (players s) |} [].
Proof.
  intros Hp. unfold on_create_room. rewrite Hp.
  pose proof (generateRoomCode_result (rooms s) _ draws (Nat.le_refl _)) as Hg.
  destruct (generateRoomCode (rooms s) draws) as [c0|]; [|discriminate].
  destruct Hg as (Hlen & _ & Hfresh). intros [= <- <-].
  assert (Hne : c0 <> "") by (intros ->; discriminate).
  unfold on_disconnect, room_of. simpl. rewrite !lookup_insert_eq. simpl.
  destruct (String.eqb_spec c0 ""); [contradiction|].
  rewrite lookup_insert_eq. cbn [room_players]. rewrite without_self. simpl.
  rewrite (delete_insert_id _ _ _ Hfresh), delete_insert_eq. reflexivity.
Qed.

Lemma create_then_disconnect_witness :
  on_disconnect "a" 9 (state_after (mid_game ++ [second_room])%list) =
    Done {| rooms := rooms (state_after mid_game);
            players := delete "a" (players (state_after mid_game)) |} [] /\
  listed (state_after mid_game) "a" "AAAA".
Proof.
  split.
  - apply (create_then_disconnect "a" player_a [0; 0; 0; 0; 0; 0; 0; two53 - 1] 8 8 9
             (state_after mid_game) _
             [ socket_join "a" "AAAZ"; socket_emit "a" (room_created "AAAZ");
               io_to_emit "AAAZ" (player_joined ["a"] "a") ]
             mid_game_player_a).
    vm_compute. reflexivity.
  - exists mid_game_room. split; [exact mid_game_room_stored|].
    simpl. apply elem_of_cons. left. reflexivity.
Defined.

Lemma stale_entry_step e s s1 out sid c :
  handle e s = Done s1 out ->
  players s !! sid = None ->
  listed s sid c ->
  (forall now, e <> connection sid now) ->
  listed s1 sid c /\ players s1 !! sid = None.
Proof.
  intros He Hp Hl Hnew.
  destruct (decide (sender e = Some sid)) as [Hsend|Hsend].
  - destruct e as [sid0 now|sid0 data|sid0 draws t1 t2|sid0 data now|sid0 data now
                  |sid0 data now|sid0 data now u|sid0 data now|sid0 now|now];
      simpl in Hsend; try discriminate; injection Hsend as ->; simpl in He.
    + exfalso. exact (Hnew now eq_refl).
    + unfold on_set_name in He. rewrite Hp in He. injection He as <- <-. auto.
    + unfold on_create_room in He. rewrite Hp in He. injection He as <- <-. auto.
    + unfold on_join_room in He. rewrite Hp in He. injection He as <- <-. auto.
    + unfold on_leave_room in He. rewrite (room_of_unregistered _ _ Hp) in He.
      injection He as <- <-. auto.
    + split; [eapply (handle_listed (start_game sid data now)); eauto|].
      unfold on_start_game in He. repeat case_match; try discriminate;
        injection He as <- <-; exact Hp.
    + split; [eapply (handle_listed (game_action sid data now u)); eauto|].
      unfold on_game_action in He. rewrite Hp in He.
      repeat case_match; try discriminate; injection He as <- <-; exact Hp.
    + split; [eapply (handle_listed (restart_game sid data now)); eauto|].
      unfold on_restart_game in He. repeat case_match; try discriminate;
        injection He as <- <-; exact Hp.
    + unfold on_disconnect in He. rewrite (room_of_unregistered _ _ Hp) in He.
      injection He as <- <-. split; [exact Hl|]. simpl. apply lookup_delete_eq.
  - split.
    + eapply handle_listed; [exact He | exact Hl |].
      intros Hun. apply Hsend. destruct e; simpl in *; try contradiction; congruence.
    + rewrite (handle_players_frame _ _ _ _ _ He Hsend). exact Hp.
Qed.

(** X21: an entry of a room's player list whose connection is no longer in
    the registry stays for good: as long as the same id does not connect
    again (socket ids are not reused), no sequence of events takes it off
    the list, so the room is never emptied and never deleted. *)
Theorem stale_entry_is_permanent (es : list Event) (s s' : State) (out : list Effect)
    (sid c : string) :
  players s !! sid = None ->
  listed s sid c ->
  Forall (fun e => forall now, e <> connection sid now) es ->
  run es s = Done s' out ->
  listed s' sid c /\ players s' !! sid = None.
Proof.
  revert s s' out. induction es as [|e es IH]; intros s s' out Hp Hl Hes; simpl.
  - intros [= <- _]. auto.
  - apply Forall_cons in Hes as [He Hes].
    destruct (handle e s) as [s1 out1| |] eqn:Hstep; try discriminate.
    destruct (run es s1) as [s2 out2| |] eqn:Hrun; try discriminate.
    intros [= <- _].
    destruct (stale_entry_step _ _ _ _ _ _ Hstep Hp Hl He) as [Hl1 Hp1].
    exact (IH _ _ _ Hp1 Hl1 Hes Hrun).
Qed.

Lemma stale_entry_is_permanent_witness :
  players (state_after orphaned) !! "a" = None /\
  listed (state_after orphaned) "a" "AAAA" /\
  listed (state_after (orphaned ++ afterwards)%list) "a" "AAAA".
Proof.
  assert (Hp : players (state_after orphaned) !! "a" = None) by (vm_compute; reflexivity).
  assert (Hl : listed (state_after orphaned) "a" "AAAA").
  { eexists. split; [vm_compute; reflexivity|].
    simpl. apply elem_of_cons. left. reflexivity. }
  split; [exact Hp|]. split; [exact Hl|].
  refine (proj1 (stale_entry_is_permanent afterwards (state_after orphaned)
                   (state_after (orphaned ++ afterwards)%list)
                   [io_to_emit "AAAA" (player_left ["a"])] "a" "AAAA" Hp Hl _ _)).
  - repeat (apply Forall_cons; split; [intros now; discriminate|]). apply Forall_nil_2.
  - vm_compute. reflexivity.
Defined.

(** ** Joining and leaving again *)

(** X22: a registered connection that joins a room listing one other player
    and then leaves gives the room back its player list: the other player is
    alone on it again.  The room comes back not active, with both health
    values at 100 and its turn, round and win counters as they were; the
    caller's record has no room. *)
Theorem join_then_leave (s : State) (sid : string) (p : Player) (d d' : Fields)
    (now now' : Z) (c : string) (room : Room) (a : string) :
  reachable s ->
  players s !! sid = Some p ->
  f_roomCode d = JStr c ->
  rooms s !! c = Some room ->
  room_players room = [a] ->
  a <> sid ->
  exists s1 s2 room2,
    on_join_room sid (Data d) now s =
      Done s1 [ socket_join sid c; socket_emit sid (room_joined c);
                io_to_emit c (player_joined [a; sid] sid) ] /\
    on_leave_room sid (Data d') now' s1 =
      Done s2 [ io_to_emit c (player_left [a]); socket_leave sid (f_roomCode d') ] /\
    rooms s2 !! c = Some room2 /\
    room_players room2 = room_players room /\
    (player1Health (gameState room2) = 100 /\ player2Health (gameState room2) = 100 /\
     gameActive (gameState room2) = false) /\
    (currentTurn (gameState room2) = currentTurn (gameState room) /\
     round (gameState room2) = round (gameState room) /\
     player1Wins (gameState room2) = player1Wins (gameState room) /\
     player2Wins (gameState room2) = player2Wins (gameState room)) /\
    (players s2 !! sid = Some (clear_room_of (set_room_of (Some c) false p)) /\
     forall c', c' <> c -> rooms s2 !! c' = rooms s !! c').
Proof.
  intros Hs Hp Hd Hc Hps Hne.
  destruct (rooms_ok_lookup _ _ _ (reachable_ok _ Hs) Hc) as (Hk & _).
  assert (Hc0 : c <> "") by (intros ->; discriminate).
  assert (Hwo : without sid [a; sid] = [a]).
  { unfold without. rewrite filter_cons_True by exact Hne.
    rewrite filter_cons_False by (intros Hn; exact (Hn eq_refl)). reflexivity. }
  unfold on_join_room, rooms_get. rewrite Hp, Hd, Hc, Hps. simpl.
  eexists _, _, _. split; [reflexivity|].
  unfold on_leave_room, room_of. simpl. rewrite !lookup_insert_eq. simpl.
  destruct (String.eqb_spec c ""); [contradiction|].
  rewrite lookup_insert_eq. cbn [room_players with_room]. rewrite Hwo. simpl.
  split; [reflexivity|]. simpl. rewrite lookup_insert_eq.
  split; [reflexivity|]. simpl. rewrite lookup_insert_eq.
  split_and!; try reflexivity; try (symmetry; exact Hps).
  intros c' Hc'. rewrite !lookup_insert_ne by congruence. reflexivity.
Qed.

Lemma join_then_leave_witness :
  exists s1 s2 room2,
    on_join_room "z" (Data (payload "AAAA" "" "")) 20
                 (state_after (with_visitor ++ [disconnect "a" 9])%list) =
      Done s1 [ socket_join "z" "AAAA"; socket_emit "z" (room_joined "AAAA");
                io_to_emit "AAAA" (player_joined ["b"; "z"] "z") ] /\
    on_leave_room "z" (Data (payload "AAAA" "" "")) 21 s1 =
      Done s2 [ io_to_emit "AAAA" (player_left ["b"]); socket_leave "z" (JStr "AAAA") ] /\
    rooms s2 !! "AAAA" = Some room2 /\
    room_players room2 = ["b"] /\
    player2Health (gameState room2) = 100.
Proof.
  destruct (join_then_leave (state_after (with_visitor ++ [disconnect "a" 9])%list) "z"
              {| player_id := "z"; player_name := JStr "Anonymous"; player_room := None;
                 isPlayer1 := false; connectedAt := 8 |}
              (payload "AAAA" "" "") (payload "AAAA" "" "") 20 21 "AAAA"
              {| code := "AAAA"; room_players := ["b"];
                 gameState := {| player1Health := 100; player2Health := 81;
                                 gameActive := false; currentTurn := player2; round := 1;
                                 player1Wins := 0; player2Wins := 0 |};
                 createdAt := 3; lastActivity := 9 |} "b"
              (state_after_reachable _))
    as (s1 & s2 & room2 & H1 & H2 & H3 & H4 & (_ & H5 & _) & _).
  - vm_compute. reflexivity.
  - reflexivity.
  - vm_compute. reflexivity.
  - reflexivity.
  - discriminate.
  - exists s1, s2, room2. split; [exact H1|]. split; [exact H2|].
    split; [exact H3|]. split; [exact H4|]. exact H5.
Defined.
